(** * route-detect evaluation harness: [practicum/evaluate.py]

    A shallow embedding of the evaluation script and the properties its
    specification states about it.

    Modelling conventions.
    - A Python [str] is a [string]; one [ascii] stands for one character.
    - A Python [int] is a [Z]; [str(n)] on an int is stdpp's decimal [pretty].
    - An exception is a value of [exn]; code that can raise returns a
      [result], and sequencing stops at the first [Raise], as Python does.
    - An Analysis Record is the object [json.load] returns for a persisted
      file: every field has the type [analyze_repository] writes it with, and
      every field may be absent ([None]), which is what a subscript
      [data["k"]] turns into [KeyError].  The dictionaries that are used as
      maps (the per-language line counts, the metavariable bindings of a
      finding) are [gmap]s keyed by [string].
    - What belongs to the Python runtime and to the operating system, and not
      to this repository (float formatting, [urlparse], the file system, the
      external commands, the clock, [json.loads]), is a variable of the
      section that uses it. *)

From Stdlib Require Import ZArith List String Ascii Sorting.Sorted Permutation.
From stdpp Require Import base option list gmap strings pretty.

Open Scope string_scope.
Open Scope Z_scope.

(** ** Exceptions and results *)

Inductive exn :=
| KeyError (key : string)
| TypeError
| ValueError
| IndexError
| FileNotFoundError
| SystemExit (code : Z).

Inductive result (A : Type) :=
| Ok (a : A)
| Raise (e : exn).
Arguments Ok {A} a.
Arguments Raise {A} e.

Global Instance result_ret : MRet result := fun A a => Ok a.
Global Instance result_bind : MBind result := fun A B f m =>
  match m with
  | Ok a => f a
  | Raise e => Raise e
  end.

Definition raises {A} (m : result A) : Prop := exists e, m = Raise e.

(** [d[k]] on a field that may be absent. *)
Definition getitem {A} (k : string) (field : option A) : result A :=
  match field with
  | Some a => Ok a
  | None => Raise (KeyError k)
  end.

(** [d[k]] on a dictionary used as a map. *)
Definition dict_getitem {A} (d : gmap string A) (k : string) : result A :=
  getitem k (d !! k).

(** [sum(gen)] over a generator whose items may raise: the items are
    evaluated in order and the first exception ends the sum. *)
Fixpoint py_sum_from (acc : Z) (items : list (result Z)) : result Z :=
  match items with
  | [] => Ok acc
  | Ok n :: rest => py_sum_from (acc + n) rest
  | Raise e :: _ => Raise e
  end.

Definition py_sum (items : list (result Z)) : result Z := py_sum_from 0 items.

(** [int(b)] *)
Definition int_of_bool (b : bool) : Z := if b then 1 else 0.

(** [pool.map(f, xs)] / a list comprehension whose body may raise. *)
Fixpoint map_result {A B} (f : A -> result B) (xs : list A) : result (list B) :=
  match xs with
  | [] => Ok []
  | x :: rest =>
      match f x with
      | Raise e => Raise e
      | Ok y =>
          match map_result f rest with
          | Raise e => Raise e
          | Ok ys => Ok (y :: ys)
          end
      end
  end.

(** ** Strings *)

(** [needle in hay] for two strings: [needle] occurs in [hay]. *)
Fixpoint str_in (needle hay : string) : bool :=
  String.prefix needle hay
  || match hay with
     | EmptyString => false
     | String _ rest => str_in needle rest
     end.

(** [s.split(sep)] for a one-character separator: one more part than there
    are separators, empty parts kept. *)
Fixpoint split_on (sep : ascii) (s : string) : list string :=
  match s with
  | EmptyString => [EmptyString]
  | String c rest =>
      if Ascii.eqb c sep then EmptyString :: split_on sep rest
      else match split_on sep rest with
           | [] => [String c EmptyString]
           | part :: parts => String c part :: parts
           end
  end.

(** [s[:n]] *)
Definition str_take (n : nat) (s : string) : string := String.substring 0 n s.

(** [str(n)] for an int. *)
Definition str_int (n : Z) : string := pretty n.

(** ** Constants of the module *)

Definition ROLE_METAVARIABLES : list string := ["$AUTHZ"; "$...AUTHZ"].
Definition JS_TS_LANGUAGE : string := "JavaScript/TypeScript".
Definition SHORT_HASH_LEN : nat := 7.
Definition EX_OK : Z := 0.

(** ** Data model *)

(** One binding of a pattern variable in a finding. *)
Record metavar := { abstract_content : option string }.

(** [result["extra"]] *)
Record extra_t := { metavars : option (gmap string metavar) }.

(** One finding of the scanner: [data["semgrep"]["results"][i]]. *)
Record finding := {
  check_id : option string;
  extra : option extra_t;
}.

(** [data["semgrep"]] *)
Record semgrep_t := { results : option (list finding) }.

(** [data["tokei"][language]] *)
Record lang_stats := {
  blanks : option Z;
  code : option Z;
  comments : option Z;
}.

(** A finding as the scanner reports it: an identifier and the container
    of its metavariable bindings. *)
Definition finding_of (cid : string) (mvs : gmap string metavar) : finding :=
  {| check_id := Some cid; extra := Some {| metavars := Some mvs |} |}.

(** A binding to the literal [s]. *)
Definition literal (s : string) : metavar := {| abstract_content := Some s |}.

(** A path is the list of its components; a Metrics Row is a Python list
    of strings. *)
Abbreviation path := (list string).
Abbreviation row := (list string).

(** ** The operands of [in]

    [x in c] tests for a substring when [c] is a [str].  A [pathlib.Path]
    defines none of [__contains__], [__iter__] and [__getitem__], so there
    the operator raises [TypeError]. *)

Inductive operand :=
| OStr (s : string)
| OPath (p : path).

Definition py_in (needle : string) (container : operand) : result bool :=
  match container with
  | OStr s => Ok (str_in needle s)
  | OPath _ => Raise TypeError
  end.

(** [any(gen)]: stops at the first true item, or at the first exception. *)
Fixpoint py_any (items : list (result bool)) : result bool :=
  match items with
  | [] => Ok false
  | Ok true :: _ => Ok true
  | Ok false :: rest => py_any rest
  | Raise e :: _ => Raise e
  end.

(** [[x for x in xs if cond(x)]] with a condition that may raise. *)
Fixpoint filter_result {A} (cond : A -> result bool) (xs : list A)
    : result (list A) :=
  match xs with
  | [] => Ok []
  | x :: rest =>
      match cond x with
      | Raise e => Raise e
      | Ok b =>
          match filter_result cond rest with
          | Raise e => Raise e
          | Ok ys => Ok (if b then x :: ys else ys)
          end
      end
  end.

(** [l[i]] on a list. *)
Definition list_getitem {A} (l : list A) (i : nat) : result A :=
  match l !! i with
  | Some a => Ok a
  | None => Raise IndexError
  end.

(** The value of [args.repos]: [None] without the flag, else the list of
    substrings; and its truth value. *)
Definition repos_given (repos : option (list string)) : bool :=
  match repos with
  | Some (_ :: _) => true
  | _ => false
  end.

(** [any(repo in c for repo in args.repos)] *)
Definition any_repo_in (repos : option (list string)) (c : operand)
    : result bool :=
  py_any ((fun repo => py_in repo c) <$> default [] repos).

(** The static registry, in the order of the dictionary literal. *)
Definition HARNESS : list (string * list (string * list string)) :=
  [ ("Python",
      [ ("django",
          [ "https://github.com/DefectDojo/django-DefectDojo";
            "https://github.com/saleor/saleor";
            "https://github.com/wagtail/wagtail" ]);
        ("django-rest-framework",
          [ "https://github.com/DefectDojo/django-DefectDojo" ]);
        ("flask",
          [ "https://github.com/apache/airflow";
            "https://github.com/flaskbb/flaskbb";
            "https://github.com/getredash/redash" ]);
        ("sanic",
          [ "https://github.com/howie6879/owllook";
            "https://github.com/jacebrowning/memegen" ]) ]);
    ("PHP",
      [ ("laravel",
          [ "https://github.com/monicahq/monica";
            "https://github.com/koel/koel";
            "https://github.com/BookStackApp/BookStack" ]);
        ("symfony",
          [ "https://github.com/Sylius/Sylius";
            "https://github.com/sulu/sulu";
            "https://github.com/bolt/core" ]);
        ("cakephp",
          [ "https://github.com/passbolt/passbolt_api";
            "https://github.com/croogo/croogo" ]) ]);
    ("Ruby",
      [ ("rails",
          [ "https://github.com/discourse/discourse";
            "https://github.com/gitlabhq/gitlabhq";
            "https://github.com/diaspora/diaspora" ]);
        ("grape",
          [ "https://github.com/locomotivecms/engine";
            "https://github.com/gitlabhq/gitlabhq";
            "https://github.com/Mapotempo/optimizer-api" ]) ]);
    ("Java",
      [ ("spring",
          [ "https://github.com/thingsboard/thingsboard";
            "https://github.com/macrozheng/mall";
            "https://github.com/sqshq/piggymetrics" ]);
        ("jax-rs",
          [ "https://github.com/DependencyTrack/dependency-track";
            "https://github.com/eclipse/kura";
            "https://github.com/eclipse/kapua" ]) ]);
    ("Go",
      [ ("gorilla",
          [ "https://github.com/portainer/portainer";
            "https://github.com/google/exposure-notifications-server" ]);
        ("gin",
          [ "https://github.com/photoprism/photoprism";
            "https://github.com/go-admin-team/go-admin";
            "https://github.com/gotify/server" ]);
        ("chi",
          [ "https://github.com/dhax/go-base";
            "https://github.com/cloudfoundry/korifi" ]) ]);
    (JS_TS_LANGUAGE,
      [ ("express",
          [ "https://github.com/payloadcms/payload";
            "https://github.com/directus/directus" ]);
        ("react",
          [ "https://github.com/elastic/kibana";
            "https://github.com/mattermost/mattermost-webapp";
            "https://github.com/apache/superset" ]);
        ("angular",
          [ "https://github.com/Chocobozzz/PeerTube";
            "https://github.com/bitwarden/clients";
            "https://github.com/ever-co/ever-demand" ]) ]) ].

(** The (language, framework, repository) triples of the registry, in
    iteration order. *)
Definition harness_entries : list (string * string * string) :=
  lfs ← HARNESS; frs ← lfs.2; r ← frs.2; [(lfs.1, frs.1, r)].

(** ** The result processor *)

Section Process.

(** A Python float (the scan duration) and [str(x)] on it. *)
Variable float : Type.
Variable str_float : float -> string.

(** [urlparse(url).path] of the standard library; it can raise on a
    malformed network location. *)
Variable urlparse_path : string -> result string.

(** The object [json.load] returns for a persisted file. *)
Record analysis_record := {
  language : option string;
  framework : option string;
  repository : option string;
  hash : option string;
  tokei : option (gmap string lang_stats);
  semgrep : option semgrep_t;
  runtime : option float;
}.

(** A persisted file: where it is and what [json.load] reads from it. *)
Record output_file := {
  file_path : path;
  file_json : analysis_record;
}.

Definition get_org_repo (url : string) : result (string * string) :=
  parsed_path ← urlparse_path url;
  match split_on "/" parsed_path with
  | [_; org; repo] => Ok (org, repo)
  | _ => Raise ValueError
  end.

(** The keys of a line-count entry that are summed, in source order. *)
Definition loc_keys : list (string * (lang_stats -> option Z)) :=
  [("blanks", blanks); ("code", code); ("comments", comments)].

(** [data["tokei"][language][key]] *)
Definition tokei_item (data : analysis_record) (lang : string)
    (key : string * (lang_stats -> option Z)) : result Z :=
  t ← getitem "tokei" (tokei data);
  stats ← dict_getitem t lang;
  getitem key.1 (key.2 stats).

(** The generator summed for the lines of code. *)
Definition loc_items (data : analysis_record) (languages : list string)
    : list (result Z) :=
  lang ← languages; key ← loc_keys; [tokei_item data lang key].

(** [sum(int(marker in result["check_id"]) for result in results)] *)
Definition marker_count (marker : string) (rs : list finding) : result Z :=
  py_sum ((fun r => cid ← getitem "check_id" (check_id r);
                    Ok (int_of_bool (str_in marker cid))) <$> rs).

(** One step of the set comprehension for the roles: the pair
    (result, metavariable) adds the bound literal if the finding binds the
    metavariable. *)
Definition add_role (acc : result (gset string)) (rm : finding * string)
    : result (gset string) :=
  roles ← acc;
  e ← getitem "extra" (extra rm.1);
  mvs ← getitem "metavars" (metavars e);
  match mvs !! rm.2 with
  | None => Ok roles
  | Some binding =>
      content ← getitem "abstract_content" (abstract_content binding);
      Ok ({[content]} ∪ roles)
  end.

(** The set comprehension itself. *)
Definition role_set (rs : list finding) : result (gset string) :=
  foldl add_role (Ok ∅) (r ← rs; mv ← ROLE_METAVARIABLES; [(r, mv)]).

(** [process_output(filepath)]; [data] is what [json.load] reads from the
    file.  The progress line goes to the standard error of the worker that
    runs the call. *)
Definition process_output (file : output_file) : result row :=
  let data := file_json file in
  lang ← getitem "language" (language data);
  let languages :=
    if String.eqb lang JS_TS_LANGUAGE then ["JavaScript"; "TypeScript"]
    else [lang] in
  language_loc ← py_sum (loc_items data languages);
  sg ← getitem "semgrep" (semgrep data);
  rs ← getitem "results" (results sg);
  route_count ← marker_count "-route" rs;
  authenticated_count ← marker_count "-authenticated" rs;
  unauthenticated_count ← marker_count "-unauthenticated" rs;
  authorized_count ← marker_count "-authorized" rs;
  unauthorized_count ← marker_count "-unauthorized" rs;
  roles ← role_set rs;
  let role_count := Z.of_nat (size roles) in
  url ← getitem "repository" (repository data);
  org_repo ← get_org_repo url;
  let name := String.concat "/" [org_repo.1; org_repo.2] in
  full_hash ← getitem "hash" (hash data);
  let commit_hash := str_take SHORT_HASH_LEN full_hash in
  fw ← getitem "framework" (framework data);
  rt ← getitem "runtime" (runtime data);
  Ok [name; commit_hash; fw; lang;
      str_int language_loc; str_float rt;
      str_int route_count; str_int authenticated_count;
      str_int unauthenticated_count; str_int authorized_count;
      str_int unauthorized_count; str_int role_count].

(** ** The CSV emitter: the [--process] branch of [main] *)

Definition headers : row :=
  ["Repository"; "Commit hash"; "Framework"; "Language"; "Lines of code";
   "Semgrep runtime"; "Route count"; "Authn route count";
   "Unauthn route count"; "Authz route count"; "Unauthz route count";
   "Role count"].

(** [lambda r: r[3] + r[2]] *)
Definition sort_key (r : row) : result string :=
  lang ← list_getitem r 3;
  fw ← list_getitem r 2;
  Ok (lang ++ fw).

(** [list.sort(key=...)] is stable and compares keys with [<] only; on
    strings [<] is a strict total order, so its result is the one a stable
    insertion sort gives.  The keys are computed before anything moves. *)
Fixpoint insert_keyed (x : string * row) (l : list (string * row))
    : list (string * row) :=
  match l with
  | [] => [x]
  | y :: rest =>
      if String.ltb y.1 x.1 then y :: insert_keyed x rest else x :: l
  end.

Definition sort_keyed (l : list (string * row)) : list (string * row) :=
  foldr insert_keyed [] l.

Definition sort_results (rows : list row) : result (list row) :=
  keyed ← map_result (fun r => k ← sort_key r; Ok (k, r)) rows;
  Ok (snd <$> sort_keyed keyed).

(** What the main process has written and how it ends.  The progress line
    [process_output] prints comes from the worker processes of the pool and
    is not part of it. *)
Inductive message :=
| MsgNotInstalled (prog : string)
| MsgCommandFailed (args : list string) (code : Z) (err : string)
| MsgAnalyzing (lang fw repo : string)
| MsgCloning (repo : string)
| MsgHash (h : string)
| MsgRunningSemgrep (target : path) (fw : string)
| MsgFinished (rt : float) (bytes : nat)
| MsgMismatch.   (* CSV header/row mismatch *)

Record outcome := {
  ended : result Z;          (* the value [main] returns, or what it raises *)
  stdout : list row;         (* the rows given to [csv.writer] *)
  stderr : list message;
}.

(** The exit status of the interpreter: [sys.exit(n)], [SystemExit], or an
    uncaught exception (status 1 after the traceback). *)
Definition exit_status (o : outcome) : Z :=
  match ended o with
  | Ok n => n
  | Raise (SystemExit n) => n
  | Raise _ => 1
  end.

(** The part of the branch after the sort. *)
Definition write_csv (rows : list row) : outcome :=
  let mismatch :=
    existsb (fun r => negb (length headers =? length r)%nat) rows in
  if mismatch then
    {| ended := Ok 1; stdout := []; stderr := [MsgMismatch] |}
  else
    {| ended := Ok EX_OK; stdout := headers :: rows; stderr := [] |}.

Definition aborted (e : exn) : outcome :=
  {| ended := Raise e; stdout := []; stderr := [] |}.

(** The rows the branch has after [pool.map] and the sort.  Which worker's
    exception the pool re-raises when several fail depends on timing; here
    it is the first one in list order. *)
Definition process_rows (repos : option (list string))
    (outputs : list output_file) : result (list row) :=
  outputs ←
    (if repos_given repos then
       filter_result (fun o => any_repo_in repos (OPath (file_path o))) outputs
     else Ok outputs);
  rows ← map_result process_output outputs;
  sort_results rows.

(** The branch [elif args.process:] of [main], given what
    [output_dir.glob("*.json")] yields. *)
Definition main_process (repos : option (list string))
    (outputs : list output_file) : outcome :=
  match process_rows repos outputs with
  | Raise e => aborted e
  | Ok rows => write_csv rows
  end.

(** The list [analyses] of the branch [if args.analyze:]. *)
Definition analyses (repos : option (list string))
    : result (list (string * string * string)) :=
  filter_result
    (fun lfr => if negb (repos_given repos) then Ok true
                else any_repo_in repos (OStr lfr.2))
    harness_entries.

(** ** The analyzer *)

Section Analyze.

(** The operating system: the state of the file system and of everything the
    external programs can see or change. *)
Variable os : Type.

(** [p.exists()] *)
Variable path_exists : os -> path -> bool.
(** What [p.resolve()] returns: the absolute path with symlinks resolved. *)
Variable path_resolve : os -> path -> path.
(** [p.mkdir(exist_ok=True)] *)
Variable path_mkdir : path -> os -> result os.
(** [p.glob("*.json")], each path with the content of its file. *)
Variable path_glob_json : os -> path -> list output_file.
(** [subprocess.run(args, capture_output=True, encoding="utf-8", cwd=cwd)]:
    [None] when the executable is not found, else the return code, the
    captured stdout and the captured stderr. *)
Variable subprocess_run :
  list string -> option path -> os -> option (Z * string * string) * os.
(** [json.loads] on the output of the line counter and of the scanner. *)
Variable json_loads_tokei : string -> result (gmap string lang_stats).
Variable json_loads_semgrep : string -> result semgrep_t.
(** [time.monotonic()] and [round(end - start, 2)] *)
Variable monotonic : os -> float.
Variable round_elapsed : float -> float -> float.
(** [json.dump(output, p.open(mode="w"))] *)
Variable json_dump : analysis_record -> path -> os -> result os.

Record world := {
  w_os : os;
  w_stdout : list row;
  w_stderr : list message;
}.

(** A computation of the main process: it reads and changes the world and
    returns or raises; what was done before an exception stays done. *)
Definition M (A : Type) : Type := world -> result A * world.

Definition ret {A} (a : A) : M A := fun w => (Ok a, w).
Definition bind {A B} (m : M A) (f : A -> M B) : M B := fun w =>
  match m w with
  | (Ok a, w') => f a w'
  | (Raise e, w') => (Raise e, w')
  end.
Definition lift {A} (r : result A) : M A := fun w => (r, w).
Definition raise {A} (e : exn) : M A := lift (Raise e).

Local Instance M_ret : MRet M := @ret.
Local Instance M_bind : MBind M := fun A B f m => bind m f.

Definition print_stderr (msg : message) : M unit := fun w =>
  (Ok (), {| w_os := w_os w; w_stdout := w_stdout w;
             w_stderr := (w_stderr w ++ [msg])%list |}).

Definition get_os : M os := fun w => (Ok (w_os w), w).
Definition set_os (o : os) : M unit := fun w =>
  (Ok (), {| w_os := o; w_stdout := w_stdout w; w_stderr := w_stderr w |}).

(** [sys.exit(code)] *)
Definition sys_exit {A} (code : Z) : M A := raise (SystemExit code).

(** [p / name] for a name without a separator: pathlib drops an empty or
    [.] component. *)
Definition path_join (p : path) (name : string) : path :=
  if decide (name = "" \/ name = ".") then p else (p ++ [name])%list.

(** [str(p)] *)
Definition path_str (p : path) : string := String.concat "/" p.

(** [p.resolve(strict=True)] raises when the path does not exist. *)
Definition resolve_strict (p : path) : M path :=
  o ← get_os;
  if path_exists o p then ret (path_resolve o p) else raise FileNotFoundError.

(** The characters [str.strip()] removes. *)
Definition is_space (c : ascii) : bool :=
  let n := nat_of_ascii c in
  ((9 <=? n) && (n <=? 13) || (28 <=? n) && (n <=? 32)
   || (n =? 133) || (n =? 160))%nat.

Fixpoint lstrip (s : string) : string :=
  match s with
  | String c rest => if is_space c then lstrip rest else s
  | EmptyString => s
  end.

Definition str_strip (s : string) : string :=
  String.rev (lstrip (String.rev (lstrip s))).

Definition run_cmd (args : list string) (cwd : option path) : M string :=
  o ← get_os;
  match subprocess_run args cwd o with
  | (None, o') =>
      _ ← set_os o';
      _ ← print_stderr (MsgNotInstalled (List.hd "" args));
      sys_exit 1
  | (Some (returncode, out, err), o') =>
      _ ← set_os o';
      if negb (returncode =? EX_OK) then
        _ ← print_stderr (MsgCommandFailed args returncode err);
        sys_exit 1
      else ret out
  end.

Definition analyze_repository (harness_dir output_dir : path)
    (lang fw repo_url : string) : M unit :=
  _ ← print_stderr (MsgAnalyzing lang fw repo_url);
  org_repo ← lift (get_org_repo repo_url);
  let repo := org_repo.2 in
  let target_dir := path_join harness_dir repo in
  target_abs ← resolve_strict target_dir;
  o ← get_os;
  _ ← (if negb (path_exists o target_dir) then
     _ ← print_stderr (MsgCloning repo_url);
     harness_abs ← resolve_strict harness_dir;
     _ ← run_cmd ["git"; "clone"; repo_url] (Some harness_abs);
     ret ()
   else ret ());
  rev ← run_cmd ["git"; "rev-parse"; "HEAD"] (Some target_abs);
  let repository_hash := str_strip rev in
  _ ← print_stderr (MsgHash repository_hash);
  tokei_output ← run_cmd ["tokei"; "--output"; "json"] (Some target_abs);
  tokei_json ← lift (json_loads_tokei tokei_output);
  semgrep_config ← run_cmd ["routes"; "which"; fw] None;
  let semgrepignore_path := path_join target_abs ".semgrepignore" in
  o ← get_os;
  _ ← run_cmd ["touch"; path_str (path_resolve o semgrepignore_path)] None;
  _ ← print_stderr (MsgRunningSemgrep target_abs fw);
  o ← get_os;
  let start_time := monotonic o in
  semgrep_output ←
    run_cmd ["semgrep"; "--json"; "--config"; semgrep_config]
            (Some target_abs);
  o ← get_os;
  let end_time := monotonic o in
  let rt := round_elapsed end_time start_time in
  semgrep_json ← lift (json_loads_semgrep semgrep_output);
  _ ← print_stderr (MsgFinished rt (String.length semgrep_output));
  let output_name := repo ++ "." ++ fw ++ ".json" in
  let output_path := path_join output_dir output_name in
  let output :=
    {| language := Some lang; framework := Some fw;
       repository := Some repo_url; hash := Some repository_hash;
       tokei := Some tokei_json; semgrep := Some semgrep_json;
       runtime := Some rt |} in
  o ← get_os;
  o' ← lift (json_dump output output_path o);
  set_os o'.

(** [for language, framework, repository in analyses: ...] *)
Fixpoint analyze_all (harness_dir output_dir : path)
    (todo : list (string * string * string)) : M unit :=
  match todo with
  | [] => ret ()
  | (lang, fw, repo_url) :: rest =>
      _ ← analyze_repository harness_dir output_dir lang fw repo_url;
      analyze_all harness_dir output_dir rest
  end.

(** ** The entry point *)

Record arguments := {
  arg_harness_dir : path;
  arg_output_dir : path;
  arg_repos : option (list string);
  arg_analyze : bool;
  arg_process : bool;
}.

Definition mkdir_exist_ok (p : path) : M unit :=
  o ← get_os;
  o' ← lift (path_mkdir p o);
  set_os o'.

(** The process branch as a computation of the main process. *)
Definition run_process (repos : option (list string))
    (outputs : list output_file) : M Z := fun w =>
  let o := main_process repos outputs in
  (ended o, {| w_os := w_os w;
               w_stdout := (w_stdout w ++ stdout o)%list;
               w_stderr := (w_stderr w ++ stderr o)%list |}).

Definition main (args : arguments) : M Z :=
  let harness_dir := arg_harness_dir args in
  _ ← mkdir_exist_ok harness_dir;
  let output_dir := arg_output_dir args in
  _ ← mkdir_exist_ok output_dir;
  if arg_analyze args then
    todo ← lift (analyses (arg_repos args));
    _ ← analyze_all harness_dir output_dir todo;
    ret EX_OK
  else if arg_process args then
    o ← get_os;
    run_process (arg_repos args) (path_glob_json o output_dir)
  else raise ValueError.

End Analyze.

End Process.

Arguments language {float} _.
Arguments framework {float} _.
Arguments repository {float} _.
Arguments hash {float} _.
Arguments tokei {float} _.
Arguments semgrep {float} _.
Arguments runtime {float} _.
Arguments file_path {float} _.
Arguments file_json {float} _.
Arguments MsgMismatch {float}.
Arguments MsgAnalyzing {float} lang fw repo.
Arguments MsgCloning {float} repo.
Arguments ended {float} _.
Arguments stdout {float} _.
Arguments stderr {float} _.
Arguments exit_status {float} o.
Arguments write_csv {float} rows.
Arguments aborted {float} e.
Arguments w_os {float os} _.
Arguments w_stdout {float os} _.
Arguments w_stderr {float os} _.

(** ** A small platform on which the model runs

    Durations are whole hundredths of a second; a URL has the form
    [scheme://host/path]; the file system is the list of the paths that
    exist, [git clone] creates the directory of the repository under its
    working directory and every other program prints nothing. *)

Module Small.

Definition float : Type := Z.

(** [str] of a non-negative duration with at most two decimals. *)
Definition str_float (h : float) : string :=
  let frac := h mod 100 in
  pretty (h / 100) ++ "."
  ++ (if frac mod 10 =? 0 then pretty (frac / 10)
      else pretty (frac / 10) ++ pretty (frac mod 10)).

Fixpoint from_slash (s : string) : string :=
  match s with
  | EmptyString => EmptyString
  | String c rest => if Ascii.eqb c "/" then s else from_slash rest
  end.

Fixpoint after_scheme (s : string) : option string :=
  match s with
  | EmptyString => None
  | String _ rest =>
      if String.prefix "://" s then Some (String.substring 3 (String.length s) s)
      else after_scheme rest
  end.

Definition urlparse_path (url : string) : result string :=
  match after_scheme url with
  | Some rest => Ok (from_slash rest)
  | None => Ok url
  end.

Definition os : Type := list path.

Definition path_exists (o : os) (p : path) : bool := bool_decide (p ∈ o).
Definition path_resolve (o : os) (p : path) : path := p.
Definition path_mkdir (p : path) (o : os) : result os := Ok (p :: o).
Definition path_glob_json (o : os) (p : path) : list (output_file float) := [].

Definition subprocess_run (args : list string) (cwd : option path) (o : os)
    : option (Z * string * string) * os :=
  match args, cwd with
  | ["git"; "clone"; url], Some dir =>
      (Some (0, "", ""),
       (dir ++ [List.last (split_on "/" url) ""])%list :: o)
  | _, _ => (Some (0, "", ""), o)
  end.

Definition json_loads_tokei (s : string) : result (gmap string lang_stats) :=
  Ok ∅.
Definition json_loads_semgrep (s : string) : result semgrep_t :=
  Ok {| results := Some [] |}.
Definition monotonic (o : os) : float := 0.
Definition round_elapsed (end_time start_time : float) : float :=
  end_time - start_time.
Definition json_dump (r : analysis_record float) (p : path) (o : os)
    : result os := Ok (p :: o).

Definition process_output := process_output float str_float urlparse_path.
Definition main_process := main_process float str_float urlparse_path.
Definition analyze_repository :=
  analyze_repository float urlparse_path os path_exists path_resolve
    subprocess_run json_loads_tokei json_loads_semgrep monotonic
    round_elapsed json_dump.

(** The worked example of the specification, with line counts, a commit
    hash and a duration filled in. *)
Definition flask_record (rs : list finding) : analysis_record float :=
  {| language := Some "Python"; framework := Some "flask";
     repository := Some "https://github.com/a/b";
     hash := Some "0123456789abcdef0123456789abcdef01234567";
     tokei := Some {[ "Python" := {| blanks := Some 1; code := Some 20;
                                     comments := Some 3 |} ]};
     semgrep := Some {| results := Some rs |};
     runtime := Some 1234 |}.

Definition flask_file (rs : list finding) : output_file float :=
  {| file_path := ["output"; "b.flask.json"]; file_json := flask_record rs |}.

Definition two_findings : list finding :=
  [finding_of "flask-route-get" ∅; finding_of "flask-authenticated-route" ∅].

(** Two findings that bind the same role three times and another role
    once. *)
Definition role_findings : list finding :=
  [finding_of "flask-authorized-route"
     {[ "$AUTHZ" := literal "admin"; "$...AUTHZ" := literal "admin" ]};
   finding_of "flask-authorized-route"
     {[ "$AUTHZ" := literal "admin"; "$X" := literal "other" ]};
   finding_of "flask-route-get" {[ "$...AUTHZ" := literal "editor" ]}].

(** A record without its commit hash. *)
Definition record_without_hash : output_file float :=
  {| file_path := ["output"; "c.flask.json"];
     file_json :=
       {| language := Some "Python"; framework := Some "flask";
          repository := Some "https://github.com/a/c"; hash := None;
          tokei := Some {[ "Python" := {| blanks := Some 1; code := Some 2;
                                          comments := Some 3 |} ]};
          semgrep := Some {| results := Some [] |};
          runtime := Some 50 |} |}.

(** A JavaScript/TypeScript record, and one whose line counts have no
    TypeScript entry. *)
Definition js_ts_record (t : gmap string lang_stats) : output_file float :=
  {| file_path := ["output"; "payload.express.json"];
     file_json :=
       {| language := Some JS_TS_LANGUAGE; framework := Some "express";
          repository := Some "https://github.com/payloadcms/payload";
          hash := Some "89abcdef0123456789abcdef0123456789abcdef";
          tokei := Some t;
          semgrep := Some {| results := Some [] |};
          runtime := Some 250 |} |}.

Definition js_and_ts : gmap string lang_stats :=
  {[ "JavaScript" := {| blanks := Some 1; code := Some 10;
                        comments := Some 2 |};
     "TypeScript" := {| blanks := Some 3; code := Some 30;
                        comments := Some 4 |} ]}.

Definition js_only : gmap string lang_stats :=
  {[ "JavaScript" := {| blanks := Some 1; code := Some 10;
                        comments := Some 2 |} ]}.

(** Three rows, two of them with the same sort key. *)
Definition three_rows : list row :=
  [["x/one"; "1111111"; "gin"; "Go"];
   ["y/two"; "2222222"; "chi"; "Go"];
   ["z/three"; "3333333"; "gin"; "Go"]].

(** A file system where the repositories of the first two flask entries
    are cloned and the third is not. *)
Definition two_cloned : world float os :=
  {| w_os := [["harness"; "airflow"]; ["harness"; "flaskbb"];
              ["harness"]; ["output"]];
     w_stdout := []; w_stderr := [] |}.

Definition analyze_all :=
  analyze_all float urlparse_path os path_exists path_resolve
    subprocess_run json_loads_tokei json_loads_semgrep monotonic
    round_elapsed json_dump.

Definition run_cmd := run_cmd float os subprocess_run.

(** The states that analyzing the three flask entries goes through from
    [two_cloned]. *)
Definition airflow_entry : string * string * string :=
  ("Python", "flask", "https://github.com/apache/airflow").
Definition flaskbb_entry : string * string * string :=
  ("Python", "flask", "https://github.com/flaskbb/flaskbb").

Definition after_airflow : world float os :=
  (analyze_repository ["harness"] ["output"] "Python" "flask"
     "https://github.com/apache/airflow" two_cloned).2.

Definition after_flaskbb : world float os :=
  (analyze_all ["harness"] ["output"] [airflow_entry; flaskbb_entry]
     two_cloned).2.

Definition after_redash : world float os :=
  (analyze_repository ["harness"] ["output"] "Python" "flask"
     "https://github.com/getredash/redash" after_flaskbb).2.

End Small.

(** ** What the specification calls things *)

(** [marker] occurs in [s]. *)
Definition occurs_in (marker s : string) : Prop :=
  exists pre post, s = pre ++ marker ++ post.

(** The finding has an identifier and the marker occurs in it. *)
Definition check_id_contains (marker : string) (r : finding) : Prop :=
  exists cid, check_id r = Some cid /\ occurs_in marker cid.

(** [s] is a literal some finding of [rs] binds to a role metavariable. *)
Definition bound_literal (rs : list finding) (s : string) : Prop :=
  exists r mv e mvs binding,
    r ∈ rs /\ mv ∈ ROLE_METAVARIABLES /\
    extra r = Some e /\ metavars e = Some mvs /\
    mvs !! mv = Some binding /\ abstract_content binding = Some s.

(** The literals the findings bind to the role metavariables, one entry per
    binding, in the order of the comprehension. *)
Definition literal_of (r : finding) (mv : string) : option string :=
  e ← extra r;
  mvs ← metavars e;
  binding ← (mvs : gmap string metavar) !! mv;
  abstract_content binding.

Definition role_literals (rs : list finding) : list string :=
  r ← rs; mv ← ROLE_METAVARIABLES; option_list (literal_of r mv).

(** The sort key of a row: its language field followed by its framework
    field. *)
Definition row_key (r : list string) : string :=
  default "" (r !! 3%nat) ++ default "" (r !! 2%nat).

(** The finding has an identifier and the marker occurs in it, as the
    processor tests it. *)
Definition has_marker (marker : string) (r : finding) : bool :=
  match check_id r with
  | Some cid => str_in marker cid
  | None => false
  end.

(** The number of findings of [rs] whose identifier contains [marker]. *)
Definition findings_with (marker : string) (rs : list finding) : Z :=
  Z.of_nat (length (List.filter (has_marker marker) rs)).

(** The languages whose line counts are summed. *)
Definition languages_of (lang : string) : list string :=
  if String.eqb lang JS_TS_LANGUAGE then ["JavaScript"; "TypeScript"]
  else [lang].

(** The order of the emitted rows: by the concatenated key. *)
Definition key_le (r1 r2 : list string) : Prop :=
  String.le (row_key r1) (row_key r2).

(** The same order on rows paired with their keys. *)
Definition keyed_le (a b : string * row) : Prop := String.le a.1 b.1.

Section Vocabulary.

Variable float : Type.
Variable str_float : float -> string.
Variable urlparse_path : string -> result string.

(** Everything [process_output] reads from a record on the way to a row. *)
Inductive reads (data : analysis_record float) : list string -> Prop :=
| reads_intro lang loc sg rs url p pre org repo h fw rt :
    language data = Some lang ->
    py_sum (loc_items float data (languages_of lang)) = Ok loc ->
    semgrep data = Some sg ->
    results sg = Some rs ->
    Forall (fun r => is_Some (check_id r)) rs ->
    Forall (fun r => exists e mvs, extra r = Some e /\ metavars e = Some mvs /\
              forall mv b, mv ∈ ROLE_METAVARIABLES -> mvs !! mv = Some b ->
                           is_Some (abstract_content b)) rs ->
    repository data = Some url ->
    urlparse_path url = Ok p ->
    split_on "/" p = [pre; org; repo] ->
    hash data = Some h ->
    framework data = Some fw ->
    runtime data = Some rt ->
    reads data
      [org ++ "/" ++ repo; str_take SHORT_HASH_LEN h; fw; lang;
       str_int loc; str_float rt;
       str_int (findings_with "-route" rs);
       str_int (findings_with "-authenticated" rs);
       str_int (findings_with "-unauthenticated" rs);
       str_int (findings_with "-authorized" rs);
       str_int (findings_with "-unauthorized" rs);
       str_int (Z.of_nat (size (list_to_set (role_literals rs) : gset string)))].

(** A field the processor expects is absent from the record: one of the
    seven top-level fields, the line-count entry of (one of) the record's
    language(s) or one of its three counts, the list of findings, the
    identifier, the [extra] object or the metavariable container of a
    finding, or the literal of a role metavariable that a finding binds. *)
Inductive missing_field (data : analysis_record float) : Prop :=
| missing_language : language data = None -> missing_field data
| missing_framework : framework data = None -> missing_field data
| missing_repository : repository data = None -> missing_field data
| missing_hash : hash data = None -> missing_field data
| missing_runtime : runtime data = None -> missing_field data
| missing_tokei : tokei data = None -> missing_field data
| missing_semgrep : semgrep data = None -> missing_field data
| missing_tokei_language l lang t :
    language data = Some l -> lang ∈ languages_of l ->
    tokei data = Some t -> t !! lang = None -> missing_field data
| missing_tokei_count l lang t stats :
    language data = Some l -> lang ∈ languages_of l ->
    tokei data = Some t -> t !! lang = Some stats ->
    blanks stats = None \/ code stats = None \/ comments stats = None ->
    missing_field data
| missing_results sg :
    semgrep data = Some sg -> results sg = None -> missing_field data
| missing_check_id sg rs r :
    semgrep data = Some sg -> results sg = Some rs -> r ∈ rs ->
    check_id r = None -> missing_field data
| missing_extra sg rs r :
    semgrep data = Some sg -> results sg = Some rs -> r ∈ rs ->
    extra r = None -> missing_field data
| missing_metavars sg rs r e :
    semgrep data = Some sg -> results sg = Some rs -> r ∈ rs ->
    extra r = Some e -> metavars e = None -> missing_field data
| missing_abstract_content sg rs r e mvs mv binding :
    semgrep data = Some sg -> results sg = Some rs -> r ∈ rs ->
    extra r = Some e -> metavars e = Some mvs ->
    mv ∈ ROLE_METAVARIABLES -> mvs !! mv = Some binding ->
    abstract_content binding = None -> missing_field data.

End Vocabulary.


(** ** Results and strings: basic facts *)

Lemma bind_Ok {A B} (m : result A) (f : A -> result B) (b : B) :
  m ≫= f = Ok b -> exists a, m = Ok a /\ f a = Ok b.
Proof. destruct m as [a|e]; [eauto | discriminate]. Qed.

Lemma not_Ok_raises {A} (m : result A) :
  (forall a, m <> Ok a) -> raises m.
Proof. destruct m as [a|e]; [intros H; destruct (H a eq_refl) | by exists e]. Qed.

Lemma getitem_Ok {A} k (field : option A) a :
  getitem k field = Ok a -> field = Some a.
Proof. destruct field; simpl; congruence. Qed.

Lemma append_cons c (s t : string) : String c s ++ t = String c (s ++ t).
Proof. reflexivity. Qed.

Lemma append_nil (t : string) : "" ++ t = t.
Proof. reflexivity. Qed.

Lemma prefix_occurs (marker s : string) :
  String.prefix marker s = true <-> exists post, s = marker ++ post.
Proof.
  revert s; induction marker as [|c marker IH]; intros s.
  - destruct s; simpl; split; eauto.
  - destruct s as [|d s]; simpl.
    + split; [discriminate | intros [post H]; discriminate].
    + destruct (ascii_dec c d) as [->|Hne].
      * rewrite IH. split; intros [post H]; exists post;
          rewrite append_cons in *; congruence.
      * split; [discriminate|]. intros [post H]. rewrite append_cons in H.
        congruence.
Qed.

Lemma str_in_nil marker : str_in marker "" = String.prefix marker "".
Proof. apply orb_false_r. Qed.

Lemma str_in_cons marker c s :
  str_in marker (String c s)
  = String.prefix marker (String c s) || str_in marker s.
Proof. reflexivity. Qed.

Lemma str_in_occurs (marker s : string) :
  str_in marker s = true <-> occurs_in marker s.
Proof.
  unfold occurs_in. induction s as [|c s IH].
  - rewrite str_in_nil, prefix_occurs. split.
    + intros [post H]. by exists "", post.
    + intros ([|d pre] & post & H); [by exists post|discriminate].
  - rewrite str_in_cons, orb_true_iff, prefix_occurs, IH. split.
    + intros [[post H]|(pre & post & H)].
      * by exists "", post.
      * exists (String c pre), post. by rewrite append_cons, H.
    + intros ([|d pre] & post & H).
      * left. by exists post.
      * right. exists pre, post. rewrite append_cons in H. congruence.
Qed.

Lemma py_sum_from_Ok acc (items : list (result Z)) n :
  py_sum_from acc items = Ok n ->
  exists ns, items = Ok <$> ns /\ n = acc + foldr Z.add 0 ns.
Proof.
  revert acc; induction items as [|[m|e] items IH]; intros acc H; simpl in H.
  - injection H as <-. exists []. split; [done|simpl; lia].
  - apply IH in H as (ns & -> & ->). exists (m :: ns). split; [done|simpl; lia].
  - discriminate.
Qed.

Lemma has_marker_contains marker r :
  has_marker marker r = true <-> check_id_contains marker r.
Proof.
  unfold has_marker, check_id_contains. destruct (check_id r) as [cid|].
  - rewrite str_in_occurs. split.
    + intros Ho. by exists cid.
    + intros (cid' & Hc & Ho). by injection Hc as <-.
  - split; [discriminate | intros (cid & Hc & _); discriminate].
Qed.

Lemma marker_sum_Ok marker rs acc n :
  py_sum_from acc
    ((fun r => cid ← getitem "check_id" (check_id r);
               Ok (int_of_bool (str_in marker cid))) <$> rs) = Ok n ->
  Forall (fun r => is_Some (check_id r)) rs /\
  n = acc + Z.of_nat (length (List.filter (has_marker marker) rs)).
Proof.
  revert acc. induction rs as [|r rs IH]; intros acc H; simpl in H.
  - injection H as <-. split; [constructor | simpl; lia].
  - destruct (check_id r) as [cid|] eqn:Hc; simpl in H; [|discriminate].
    apply IH in H as [Hall ->]. split; [constructor; eauto|].
    simpl. unfold has_marker at 2. rewrite Hc.
    destruct (str_in marker cid); simpl; lia.
Qed.

Lemma marker_count_Ok marker rs n :
  marker_count marker rs = Ok n ->
  Forall (fun r => is_Some (check_id r)) rs /\ n = findings_with marker rs.
Proof.
  intros H. apply marker_sum_Ok in H as [Hall ->]. split; [done|].
  unfold findings_with. lia.
Qed.

(** ** The role set *)

Lemma foldl_add_role_Raise e pairs : foldl add_role (Raise e) pairs = Raise e.
Proof. induction pairs as [|rm pairs IH]; simpl; [done | apply IH]. Qed.

Lemma add_role_Ok acc rm roles :
  add_role (Ok acc) rm = Ok roles ->
  (exists e mvs, extra rm.1 = Some e /\ metavars e = Some mvs /\
     forall b, mvs !! rm.2 = Some b -> is_Some (abstract_content b)) /\
  roles = list_to_set (option_list (literal_of rm.1 rm.2)) ∪ acc.
Proof.
  unfold add_role, literal_of. simpl.
  destruct (extra rm.1) as [e|] eqn:He; simpl; [|discriminate].
  destruct (metavars e) as [mvs|] eqn:Hm; simpl; [|discriminate].
  destruct (mvs !! rm.2) as [b|] eqn:Hb; simpl.
  - destruct (abstract_content b) as [s|] eqn:Hs; simpl; [|discriminate].
    intros Heq. injection Heq as <-. split; [|set_solver].
    exists e, mvs. split; [done|]. split; [done|].
    intros b' Hb'. rewrite Hb in Hb'. injection Hb' as <-. eauto.
  - intros Heq. injection Heq as <-. split; [|set_solver].
    exists e, mvs. split; [done|]. split; [done|].
    intros b' Hb'. rewrite Hb in Hb'. discriminate.
Qed.

Lemma foldl_add_role_Ok pairs : forall acc roles,
  foldl add_role (Ok acc) pairs = Ok roles ->
  Forall (fun rm : finding * string =>
            exists e mvs, extra rm.1 = Some e /\ metavars e = Some mvs /\
              forall b, mvs !! rm.2 = Some b -> is_Some (abstract_content b))
         pairs /\
  roles = list_to_set (rm ← pairs; option_list (literal_of rm.1 rm.2)) ∪ acc.
Proof.
  induction pairs as [|rm pairs IH]; intros acc roles H.
  - injection H as <-. split; [constructor | set_solver].
  - change (foldl add_role (add_role (Ok acc) rm) pairs = Ok roles) in H.
    destruct (add_role (Ok acc) rm) as [acc'|e] eqn:Hstep.
    + apply add_role_Ok in Hstep as [Hrm ->].
      apply IH in H as [Hall ->]. split; [by constructor|].
      rewrite bind_cons, list_to_set_app_L. set_solver.
    + by rewrite foldl_add_role_Raise in H.
Qed.

Lemma role_pairs_literals rs :
  (rm ← (r ← rs; mv ← ROLE_METAVARIABLES; [(r, mv)]);
   option_list (literal_of rm.1 rm.2)) = role_literals rs.
Proof.
  unfold role_literals. induction rs as [|r rs IH]; [done|].
  rewrite !bind_cons, bind_app, IH. f_equal.
Qed.

Lemma elem_of_role_literals rs s : s ∈ role_literals rs <-> bound_literal rs s.
Proof.
  unfold role_literals, bound_literal. rewrite list_elem_of_bind. split.
  - intros (r & Hs & Hr). apply list_elem_of_bind in Hs as (mv & Hs & Hmv).
    unfold literal_of in Hs.
    destruct (extra r) as [e|] eqn:He; simpl in Hs; [|by apply elem_of_nil in Hs].
    destruct (metavars e) as [mvs|] eqn:Hm; simpl in Hs;
      [|by apply elem_of_nil in Hs].
    destruct (mvs !! mv) as [b|] eqn:Hb; simpl in Hs;
      [|by apply elem_of_nil in Hs].
    destruct (abstract_content b) as [s'|] eqn:Hc; simpl in Hs;
      [|by apply elem_of_nil in Hs].
    apply list_elem_of_singleton in Hs as ->.
    by exists r, mv, e, mvs, b.
  - intros (r & mv & e & mvs & b & Hr & Hmv & He & Hm & Hb & Hc).
    exists r. split; [|done]. apply list_elem_of_bind. exists mv. split; [|done].
    unfold literal_of. rewrite He. simpl. rewrite Hm. simpl. rewrite Hb. simpl.
    rewrite Hc. simpl. apply list_elem_of_singleton. done.
Qed.

Lemma role_set_Ok rs roles :
  role_set rs = Ok roles ->
  Forall (fun r => exists e mvs, extra r = Some e /\ metavars e = Some mvs /\
            forall mv b, mv ∈ ROLE_METAVARIABLES -> mvs !! mv = Some b ->
                         is_Some (abstract_content b)) rs /\
  roles = list_to_set (role_literals rs).
Proof.
  unfold role_set. intros H. apply foldl_add_role_Ok in H as [Hall ->].
  rewrite role_pairs_literals. split; [|set_solver].
  apply Forall_forall. intros r Hr.
  assert (Hfst : (r, "$AUTHZ") ∈ (r ← rs; mv ← ROLE_METAVARIABLES; [(r, mv)])).
  { apply list_elem_of_bind. exists r. split; [|done]. simpl. set_solver. }
  assert (Hsnd : (r, "$...AUTHZ") ∈ (r ← rs; mv ← ROLE_METAVARIABLES; [(r, mv)])).
  { apply list_elem_of_bind. exists r. split; [|done]. simpl. set_solver. }
  rewrite Forall_forall in Hall.
  destruct (Hall _ Hfst) as (e & mvs & He & Hm & H1).
  destruct (Hall _ Hsnd) as (e' & mvs' & He' & Hm' & H2). simpl in *.
  assert (e' = e) as -> by congruence. assert (mvs' = mvs) as -> by congruence.
  exists e, mvs. split; [done|]. split; [done|].
  intros mv b Hmv Hb. unfold ROLE_METAVARIABLES in Hmv.
  apply elem_of_cons in Hmv as [->|Hmv]; [eauto|].
  apply list_elem_of_singleton in Hmv as ->. eauto.
Qed.

Lemma size_role_set (l : list string) :
  size (list_to_set l : gset string) = length (remove_dups l).
Proof.
  rewrite <- (size_list_to_set (C:=gset string) (remove_dups l))
    by apply NoDup_remove_dups.
  f_equal. apply set_eq. intros s.
  by rewrite !elem_of_list_to_set, elem_of_remove_dups.
Qed.

(** ** What a successful run of the processor has read *)

Section ProcessFacts.

Variable float : Type.
Variable str_float : float -> string.
Variable urlparse_path : string -> result string.

Local Abbreviation process := (process_output float str_float urlparse_path).
Local Abbreviation reads := (reads float str_float urlparse_path).

Ltac bind_inv H x Hx :=
  apply bind_Ok in H as (x & Hx & H); cbv beta zeta in H.

Lemma get_org_repo_Ok url org repo :
  get_org_repo urlparse_path url = Ok (org, repo) ->
  exists p pre, urlparse_path url = Ok p /\ split_on "/" p = [pre; org; repo].
Proof.
  unfold get_org_repo. intros H. bind_inv H p Hp.
  destruct (split_on "/" p) as [|pre [|o [|r [|]]]] eqn:Hs; try discriminate.
  injection H as -> ->. eauto.
Qed.

Lemma process_output_Ok file row :
  process file = Ok row -> reads (file_json file) row.
Proof.
  unfold process_output. intros H.
  bind_inv H lang Hlang. apply getitem_Ok in Hlang.
  bind_inv H loc Hloc.
  bind_inv H sg Hsg. apply getitem_Ok in Hsg.
  bind_inv H rs Hrs. apply getitem_Ok in Hrs.
  bind_inv H c1 Hc1. apply marker_count_Ok in Hc1 as [Hcid ->].
  bind_inv H c2 Hc2. apply marker_count_Ok in Hc2 as [_ ->].
  bind_inv H c3 Hc3. apply marker_count_Ok in Hc3 as [_ ->].
  bind_inv H c4 Hc4. apply marker_count_Ok in Hc4 as [_ ->].
  bind_inv H c5 Hc5. apply marker_count_Ok in Hc5 as [_ ->].
  bind_inv H roles Hroles. apply role_set_Ok in Hroles as [Hmv ->].
  bind_inv H url Hurl. apply getitem_Ok in Hurl.
  bind_inv H org_repo Horg. destruct org_repo as [org repo].
  apply get_org_repo_Ok in Horg as (p & pre & Hp & Hsplit).
  bind_inv H h Hh. apply getitem_Ok in Hh.
  bind_inv H fw Hfw. apply getitem_Ok in Hfw.
  bind_inv H rt Hrt. apply getitem_Ok in Hrt.
  injection H as <-.
  by econstructor.
Qed.

End ProcessFacts.

(** ** Splitting and slicing *)

Lemma split_on_cons sep s : exists part parts, split_on sep s = part :: parts.
Proof.
  destruct s as [|c s]; simpl; [eauto|].
  destruct (Ascii.eqb c sep); [eauto|]. destruct (split_on sep s); eauto.
Qed.

(** Joining the parts with the separator gives the string back. *)
Lemma concat_split_on sep s :
  String.concat (String sep "") (split_on sep s) = s.
Proof.
  induction s as [|c s IH]; [done|]. simpl.
  destruct (Ascii.eqb_spec c sep) as [->|Hne].
  - destruct (split_on_cons sep s) as (part & parts & Hs).
    rewrite Hs in *. simpl. rewrite append_nil, append_cons, append_nil.
    f_equal. exact IH.
  - destruct (split_on_cons sep s) as (part & parts & Hs).
    rewrite Hs in *. simpl in *. destruct parts as [|part' parts].
    + by rewrite IH.
    + rewrite append_cons. by rewrite IH.
Qed.

(** No part contains the separator. *)
Lemma split_on_sep_free sep s part :
  part ∈ split_on sep s -> ~ occurs_in (String sep "") part.
Proof.
  revert part. induction s as [|c s IH]; intros part Hin; simpl in Hin.
  - apply list_elem_of_singleton in Hin as ->.
    intros ([|d pre] & post & H); rewrite ?append_nil, ?append_cons in H;
      discriminate.
  - destruct (Ascii.eqb_spec c sep) as [->|Hne].
    + apply elem_of_cons in Hin as [->|Hin]; [|by apply IH].
      intros ([|d pre] & post & H); rewrite ?append_nil, ?append_cons in H;
        discriminate.
    + destruct (split_on_cons sep s) as (part0 & parts & Hs).
      rewrite Hs in *. apply elem_of_cons in Hin as [->|Hin].
      * intros ([|d pre] & post & H);
          rewrite ?append_nil, ?append_cons in H.
        -- congruence.
        -- injection H as -> H. apply (IH part0); [by left|].
           by exists pre, post.
      * apply IH. by right.
Qed.

(** [s[:n]] is the prefix of [s] of length [min n (len s)]. *)
Lemma str_take_prefix n s :
  exists rest, s = str_take n s ++ rest /\
               String.length (str_take n s) = Nat.min n (String.length s).
Proof.
  unfold str_take. revert s. induction n as [|n IH]; intros s.
  - exists s. by destruct s.
  - destruct s as [|c s]; simpl.
    + by exists "".
    + destruct (IH s) as (rest & Hs & Hlen). exists rest.
      rewrite append_cons, <- Hs, Hlen. done.
Qed.

(** ** Properties of the result processor *)

Section ProcessClaims.

Variable float : Type.
Variable str_float : float -> string.
Variable urlparse_path : string -> result string.

Local Abbreviation process := (process_output float str_float urlparse_path).

Lemma findings_with_bounds marker rs :
  0 <= findings_with marker rs <= Z.of_nat (length rs).
Proof.
  unfold findings_with.
  assert (length (List.filter (has_marker marker) rs) <= length rs)%nat; [|lia].
  induction rs as [|r rs IH]; simpl; [lia|].
  destruct (has_marker marker r); simpl; lia.
Qed.

(** C1. Whenever the processor returns a row for a record, its five category
    fields (route, authenticated, unauthenticated, authorized, unauthorized)
    are the decimal numbers of the findings whose [check_id] contains
    ["-route"], ["-authenticated"], ["-unauthenticated"], ["-authorized"],
    ["-unauthorized"] as a substring ([has_marker] holds of a finding
    exactly when its identifier is [pre ++ marker ++ post] for some [pre]
    and [post]), and each of these numbers is at most the number of
    findings of the record. *)
Theorem category_counts (file : output_file float) (row : list string) :
  process file = Ok row ->
  exists sg rs,
    semgrep (file_json file) = Some sg /\ results sg = Some rs /\
    row !! 6%nat = Some (str_int (findings_with "-route" rs)) /\
    row !! 7%nat = Some (str_int (findings_with "-authenticated" rs)) /\
    row !! 8%nat = Some (str_int (findings_with "-unauthenticated" rs)) /\
    row !! 9%nat = Some (str_int (findings_with "-authorized" rs)) /\
    row !! 10%nat = Some (str_int (findings_with "-unauthorized" rs)) /\
    (forall marker,
       findings_with marker rs
       = Z.of_nat (length (List.filter (has_marker marker) rs)) /\
       0 <= findings_with marker rs <= Z.of_nat (length rs)) /\
    (forall marker r,
       has_marker marker r = true <-> check_id_contains marker r).
Proof.
  intros H. apply process_output_Ok in H. destruct H.
  exists sg, rs. repeat (split; [done|]). split.
  - intros marker. split; [done | apply findings_with_bounds].
  - apply has_marker_contains.
Qed.

(** C2. Whenever the processor returns a row, its role field is the decimal
    cardinality of the set of the literals that some finding binds to one of
    the two role metavariables; a literal bound twice, in one finding or in
    several, is one element: the cardinality is the length of the list of
    bound literals with its duplicates removed. *)
Theorem role_count_distinct (file : output_file float) (row : list string) :
  process file = Ok row ->
  exists sg rs (roles : gset string),
    semgrep (file_json file) = Some sg /\ results sg = Some rs /\
    (forall s, s ∈ roles <-> bound_literal rs s) /\
    size roles = length (remove_dups (role_literals rs)) /\
    row !! 11%nat = Some (str_int (Z.of_nat (size roles))).
Proof.
  intros H. apply process_output_Ok in H. destruct H.
  exists sg, rs, (list_to_set (role_literals rs)).
  split; [done|]. split; [done|]. split; [|split; [apply size_role_set|done]].
  intros s. by rewrite elem_of_list_to_set, elem_of_role_literals.
Qed.

(** C6. Whenever the processor returns a row, the path of the repository URL
    is [pre/org/repo] with no further separator in [org] and [repo], the
    repository field is [org/repo], and the commit field is the prefix of
    the full hash of length 7 (of the whole hash when it is shorter). *)
Theorem name_and_short_hash (file : output_file float) (row : list string) :
  process file = Ok row ->
  exists url p pre org repo h short rest,
    repository (file_json file) = Some url /\
    urlparse_path url = Ok p /\
    p = pre ++ "/" ++ org ++ "/" ++ repo /\
    ~ occurs_in "/" org /\ ~ occurs_in "/" repo /\
    row !! 0%nat = Some (org ++ "/" ++ repo) /\
    hash (file_json file) = Some h /\
    row !! 1%nat = Some short /\
    h = short ++ rest /\
    String.length short = Nat.min 7 (String.length h).
Proof.
  intros H. apply process_output_Ok in H.
  destruct H as [lang loc sg rs url p pre org repo h fw rt
                 _ _ _ _ _ _ Hurl Hp Hsplit Hh _ _].
  destruct (str_take_prefix SHORT_HASH_LEN h) as (rest & Hrest & Hlen).
  exists url, p, pre, org, repo, h, (str_take SHORT_HASH_LEN h), rest.
  pose proof (concat_split_on "/" p) as Hjoin. rewrite Hsplit in Hjoin.
  repeat (split; [done|]).
  split; [apply (split_on_sep_free "/" p); rewrite Hsplit; set_solver|].
  split; [apply (split_on_sep_free "/" p); rewrite Hsplit; set_solver|].
  done.
Qed.

Lemma process_output_length (file : output_file float) (row : list string) :
  process file = Ok row -> length row = length headers.
Proof. intros H. apply process_output_Ok in H. by destruct H. Qed.

(** C3. The worked example: a record for [https://github.com/a/b],
    framework flask, language Python, whose two findings have the
    identifiers [flask-route-get] and [flask-authenticated-route] and bind
    no role metavariable, gives the repository name [a/b], route count 2,
    authenticated count 1 and 0 for the unauthenticated, authorized,
    unauthorized and role counts, whatever its hash, line counts and
    duration are. *)
Theorem worked_example (where_ : path) (h : string)
    (t : gmap string lang_stats) (b c m : Z) (rt : float)
    (mvs1 mvs2 : gmap string metavar) :
  urlparse_path "https://github.com/a/b" = Ok "/a/b" ->
  t !! "Python" = Some {| blanks := Some b; code := Some c;
                          comments := Some m |} ->
  (forall mv, mv ∈ ROLE_METAVARIABLES ->
              mvs1 !! mv = None /\ mvs2 !! mv = None) ->
  process
    {| file_path := where_;
       file_json :=
         {| language := Some "Python"; framework := Some "flask";
            repository := Some "https://github.com/a/b"; hash := Some h;
            tokei := Some t;
            semgrep :=
              Some {| results :=
                        Some [finding_of "flask-route-get" mvs1;
                              finding_of "flask-authenticated-route" mvs2] |};
            runtime := Some rt |} |}
  = Ok ["a/b"; str_take 7 h; "flask"; "Python"; str_int (b + c + m);
        str_float rt; "2"; "1"; "0"; "0"; "0"; "0"].
Proof.
  intros Hurl Ht Hmv.
  destruct (Hmv "$AUTHZ") as [H11 H21]; [set_solver|].
  destruct (Hmv "$...AUTHZ") as [H12 H22]; [set_solver|].
  set (f1 := finding_of "flask-route-get" mvs1).
  set (f2 := finding_of "flask-authenticated-route" mvs2).
  assert (Hroles : role_set [f1; f2] = Ok ∅).
  { unfold role_set, add_role. simpl. rewrite H11, H12, H21, H22. done. }
  assert (Hc1 : marker_count "-route" [f1; f2] = Ok 2) by reflexivity.
  assert (Hc2 : marker_count "-authenticated" [f1; f2] = Ok 1) by reflexivity.
  assert (Hc3 : marker_count "-unauthenticated" [f1; f2] = Ok 0) by reflexivity.
  assert (Hc4 : marker_count "-authorized" [f1; f2] = Ok 0) by reflexivity.
  assert (Hc5 : marker_count "-unauthorized" [f1; f2] = Ok 0) by reflexivity.
  unfold process_output, get_org_repo.
  cbn [file_json language semgrep results repository hash framework runtime
       getitem mbind result_bind].
  change (String.eqb "Python" JS_TS_LANGUAGE) with false. cbv iota.
  rewrite Hc1, Hc2, Hc3, Hc4, Hc5, Hroles, Hurl.
  cbn [mbind result_bind].
  assert (Hloc : py_sum (loc_items float
                   {| language := Some "Python"; framework := Some "flask";
                      repository := Some "https://github.com/a/b";
                      hash := Some h; tokei := Some t;
                      semgrep := Some {| results := Some [f1; f2] |};
                      runtime := Some rt |} ["Python"]) = Ok (b + c + m)).
  { unfold loc_items, tokei_item, dict_getitem, py_sum. simpl.
    rewrite Ht. simpl. f_equal. }
  rewrite Hloc. reflexivity.
Qed.

End ProcessClaims.

(** ** The sort *)

Lemma ltb_le (a b : string) : String.ltb a b = true -> String.le a b.
Proof.
  unfold String.ltb, String.le, String.leb.
  destruct (String.compare a b); done.
Qed.

Lemma not_ltb_le (a b : string) : String.ltb b a = false -> String.le a b.
Proof.
  unfold String.ltb, String.le, String.leb.
  rewrite (String.compare_antisym a b). destruct (String.compare b a); done.
Qed.

Lemma insert_keyed_perm (x : string * row) (l : list (string * row)) :
  Permutation (insert_keyed x l) (x :: l).
Proof.
  induction l as [|y l IH]; simpl; [done|].
  destruct (String.ltb y.1 x.1); [|done].
  rewrite IH. apply perm_swap.
Qed.

Lemma ltb_irrefl (a : string) : String.ltb a a = false.
Proof.
  unfold String.ltb. pose proof (String.compare_antisym a a) as H.
  destruct (String.compare a a); [done | discriminate | done].
Qed.

(** The sort is stable: rows with the same key keep their order. *)
Lemma insert_keyed_stable k (x : string * row) (l : list (string * row)) :
  List.filter (fun y => String.eqb y.1 k) (insert_keyed x l)
  = List.filter (fun y => String.eqb y.1 k) (x :: l).
Proof.
  induction l as [|y l IH]; [done|]. cbn [insert_keyed].
  destruct (String.ltb y.1 x.1) eqn:Hlt; [|done].
  cbn [List.filter] in *. rewrite IH.
  destruct (String.eqb_spec x.1 k) as [Hx|Hx]; [|done].
  destruct (String.eqb_spec y.1 k) as [Hy|Hy]; [|done].
  rewrite Hx, Hy, ltb_irrefl in Hlt. discriminate.
Qed.

Lemma sort_keyed_stable k (l : list (string * row)) :
  List.filter (fun y => String.eqb y.1 k) (sort_keyed l)
  = List.filter (fun y => String.eqb y.1 k) l.
Proof.
  induction l as [|x l IH]; [done|].
  change (sort_keyed (x :: l)) with (insert_keyed x (sort_keyed l)).
  rewrite insert_keyed_stable. cbn [List.filter]. by rewrite IH.
Qed.

Lemma sort_keyed_perm l : Permutation (sort_keyed l) l.
Proof.
  induction l as [|x l IH]; simpl; [done|].
  rewrite insert_keyed_perm. by constructor.
Qed.

Section Sorting.

Lemma insert_keyed_sorted (x : string * row) (l : list (string * row)) :
  StronglySorted keyed_le l -> StronglySorted keyed_le (insert_keyed x l).
Proof.
  induction l as [|y l IH]; intros Hs; simpl.
  - repeat constructor.
  - apply StronglySorted_inv in Hs as [Hs Hall].
    destruct (String.ltb y.1 x.1) eqn:Hlt.
    + constructor; [by apply IH|].
      rewrite insert_keyed_perm. constructor; [by apply ltb_le | done].
    + assert (Hxy : keyed_le x y) by by apply not_ltb_le.
      constructor; [by constructor|]. constructor; [done|].
      eapply Forall_impl; [exact Hall|]. intros z Hyz. unfold keyed_le in *.
      by etrans.
Qed.

Lemma sort_keyed_sorted l : StronglySorted keyed_le (sort_keyed l).
Proof.
  induction l as [|x l IH]; simpl; [constructor|].
  by apply insert_keyed_sorted.
Qed.

Lemma StronglySorted_snd (l : list (string * row)) :
  Forall (fun kr => kr.1 = row_key kr.2) l ->
  StronglySorted keyed_le l -> StronglySorted key_le (snd <$> l).
Proof.
  induction l as [|[k r] l IH]; intros Hk Hs; simpl; [constructor|].
  apply StronglySorted_inv in Hs as [Hs Hall].
  apply Forall_cons in Hk as [Hkr Hk]. simpl in Hkr. subst k.
  constructor; [by apply IH|]. apply Forall_fmap.
  rewrite Forall_forall in Hall, Hk. apply Forall_forall. intros [k' r'] Hin.
  specialize (Hall _ Hin). specialize (Hk _ Hin). unfold keyed_le in Hall.
  simpl in *. unfold key_le. by rewrite <- Hk.
Qed.

End Sorting.

Lemma map_result_Ok {A B} (f : A -> result B) xs ys :
  map_result f xs = Ok ys -> Forall2 (fun x y => f x = Ok y) xs ys.
Proof.
  revert ys. induction xs as [|x xs IH]; intros ys H; simpl in H.
  - injection H as <-. constructor.
  - destruct (f x) as [y|e] eqn:Hx; [|discriminate].
    destruct (map_result f xs) as [ys'|e]; [|discriminate].
    injection H as <-. constructor; [done | by apply IH].
Qed.

Lemma map_result_raises {A B} (f : A -> result B) xs x :
  x ∈ xs -> raises (f x) -> raises (map_result f xs).
Proof.
  intros Hin [e He]. apply not_Ok_raises. intros ys Hys.
  apply map_result_Ok in Hys.
  apply list_elem_of_lookup in Hin as [i Hi].
  destruct (Forall2_lookup_l _ _ _ _ _ Hys Hi) as (y & _ & Hy). congruence.
Qed.

Lemma sort_key_Ok r k : sort_key r = Ok k -> k = row_key r.
Proof.
  unfold sort_key, list_getitem, row_key.
  destruct (r !! 3%nat) as [lang|]; simpl; [|discriminate].
  destruct (r !! 2%nat) as [fw|]; simpl; [|discriminate].
  intros H. by injection H as <-.
Qed.

(** The sort returns a permutation in non-decreasing key order. *)
Lemma sort_results_Ok rows sorted :
  sort_results rows = Ok sorted ->
  Permutation rows sorted /\ StronglySorted key_le sorted.
Proof.
  unfold sort_results. intros H. apply bind_Ok in H as (keyed & Hk & H).
  injection H as <-. apply map_result_Ok in Hk.
  assert (Hsnd : snd <$> keyed = rows).
  { induction Hk as [|r kr rows keyed Hr _ IH]; [done|]. rewrite fmap_cons, IH.
    apply bind_Ok in Hr as (k & _ & Hr). by injection Hr as <-. }
  assert (Hkey : Forall (fun kr => kr.1 = row_key kr.2) keyed).
  { clear Hsnd. induction Hk as [|r kr rows keyed Hr _ IH]; constructor; [|done].
    apply bind_Ok in Hr as (k & Hk' & Hr). injection Hr as <-.
    by apply sort_key_Ok. }
  split.
  - rewrite <- Hsnd. apply fmap_Permutation. symmetry. apply sort_keyed_perm.
  - apply StronglySorted_snd; [|apply sort_keyed_sorted].
    eapply Permutation_Forall; [symmetry; apply sort_keyed_perm | done].
Qed.

(** Rows of the header's width always have a key. *)
Lemma sort_results_total rows :
  Forall (fun r => length r = length headers) rows ->
  exists sorted, sort_results rows = Ok sorted.
Proof.
  intros Hall. unfold sort_results.
  assert (Hk : exists keyed,
    map_result (fun r => k ← sort_key r; Ok (k, r)) rows = Ok keyed).
  { induction Hall as [|r rows Hr _ [keyed IH]]; [by exists []|].
    simpl. unfold sort_key at 1, list_getitem.
    destruct (lookup_lt_is_Some_2 r 3) as [lang ->]; [rewrite Hr; simpl; lia|].
    destruct (lookup_lt_is_Some_2 r 2) as [fw ->]; [rewrite Hr; simpl; lia|].
    simpl. rewrite IH. eauto. }
  destruct Hk as [keyed ->]. simpl. eauto.
Qed.

(** ** Properties of the process branch *)

Section EmitClaims.

Variable float : Type.
Variable str_float : float -> string.
Variable urlparse_path : string -> result string.

Local Abbreviation process := (process_output float str_float urlparse_path).
Local Abbreviation rows_of := (process_rows float str_float urlparse_path).
Local Abbreviation main_of := (main_process float str_float urlparse_path).

Lemma mismatch_false (rows : list row) :
  Forall (fun r => length r = length headers) rows ->
  existsb (fun r => negb (length headers =? length r)%nat) rows = false.
Proof.
  induction 1 as [|r rows Hr _ IH]; [done|]. cbn [existsb].
  rewrite IH, Hr, Nat.eqb_refl. done.
Qed.

Lemma mismatch_true (rows : list row) (r : row) :
  r ∈ rows -> length r <> length headers ->
  existsb (fun r => negb (length headers =? length r)%nat) rows = true.
Proof.
  intros Hin Hr. apply existsb_exists. exists r. split; [by apply list_elem_of_In|].
  apply negb_true_iff, Nat.eqb_neq. congruence.
Qed.

(** C7. After the sort: if some row has not as many fields as the
    twelve-column header, the mismatch message is written to standard error,
    the exit status is 1 and nothing, neither header nor data, goes to
    standard output; if every row has, the header followed by all rows goes
    to standard output and the exit status is 0.  The process branch ends
    this way whenever it gets as far as having rows. *)
Theorem mismatch_check (rows : list row) :
  length headers = 12%nat /\
  ((exists r, r ∈ rows /\ length r <> length headers) ->
     stderr (write_csv (float:=float) rows) = [MsgMismatch] /\
     exit_status (write_csv (float:=float) rows) = 1 /\
     stdout (write_csv (float:=float) rows) = []) /\
  ((forall r, r ∈ rows -> length r = length headers) ->
     stdout (write_csv (float:=float) rows) = headers :: rows /\
     exit_status (write_csv (float:=float) rows) = 0 /\
     stderr (write_csv (float:=float) rows) = []) /\
  (forall repos outputs,
     rows_of repos outputs = Ok rows ->
     main_of repos outputs = write_csv rows).
Proof.
  split; [done|]. split; [|split].
  - intros (r & Hin & Hr). unfold write_csv.
    by rewrite (mismatch_true rows r Hin Hr).
  - intros Hall. unfold write_csv.
    rewrite mismatch_false; [done|]. by apply Forall_forall.
  - intros repos outputs H. unfold main_process. by rewrite H.
Qed.

Lemma any_repo_in_path repos p :
  repos_given repos = true -> any_repo_in repos (OPath p) = Raise TypeError.
Proof. by destruct repos as [[|r rs]|]. Qed.

(** With [--repos], the filter of the process branch raises on the first
    file. *)
Lemma filter_paths_raises repos (outputs : list (output_file float)) o :
  repos_given repos = true -> o ∈ outputs ->
  filter_result (fun o => any_repo_in repos (OPath (file_path o))) outputs
  = Raise TypeError.
Proof.
  intros Hg Hin. destruct outputs as [|o' outputs]; [by apply elem_of_nil in Hin|].
  simpl. by rewrite any_repo_in_path.
Qed.

Lemma process_rows_Ok repos outputs rows :
  rows_of repos outputs = Ok rows ->
  exists raw,
    Forall2 (fun o r => process o = Ok r) outputs raw /\
    Permutation raw rows /\ StronglySorted key_le rows.
Proof.
  unfold process_rows. intros H. apply bind_Ok in H as (outs & Houts & H).
  assert (outs = outputs) as ->.
  { destruct (repos_given repos) eqn:Hg; [|congruence].
    destruct outputs as [|o outputs]; [simpl in Houts; congruence|].
    rewrite (filter_paths_raises repos _ o) in Houts; [done..|by left]. }
  apply bind_Ok in H as (raw & Hraw & H).
  apply map_result_Ok in Hraw. apply sort_results_Ok in H as [Hperm Hsorted].
  by exists raw.
Qed.

Lemma process_rows_width repos outputs rows :
  rows_of repos outputs = Ok rows ->
  length rows = length outputs /\
  Forall (fun r => length r = length headers) rows.
Proof.
  intros H. apply process_rows_Ok in H as (raw & Hraw & Hperm & _). split.
  - rewrite <- (Permutation_length Hperm). symmetry.
    by eapply Forall2_length.
  - eapply Permutation_Forall; [exact Hperm|].
    apply Forall_forall. intros r Hr.
    apply list_elem_of_lookup in Hr as [i Hi].
    destruct (Forall2_lookup_r _ _ _ _ _ Hraw Hi) as (o & _ & Ho).
    by eapply process_output_length.
Qed.

(** C8. The data rows the process branch emits are in non-decreasing order
    of the one key [language ++ framework], compared as strings; they are
    the processed rows, permuted.  In particular [Gochi < Gogin], and a
    row for (Go, gin) given before a row for (Go, chi) comes out after it. *)
Theorem rows_sorted_by_key repos outputs rows :
  rows_of repos outputs = Ok rows ->
  stdout (main_of repos outputs) = headers :: rows /\
  StronglySorted key_le rows /\
  (exists raw, Forall2 (fun o r => process o = Ok r) outputs raw /\
               Permutation raw rows) /\
  String.ltb "Gochi" "Gogin" = true /\
  (forall gin chi : row,
     gin !! 3%nat = Some "Go" -> gin !! 2%nat = Some "gin" ->
     chi !! 3%nat = Some "Go" -> chi !! 2%nat = Some "chi" ->
     sort_results [gin; chi] = Ok [chi; gin] /\
     sort_results [chi; gin] = Ok [chi; gin]).
Proof.
  intros H. split; [|split; [|split; [|split]]].
  - unfold main_process. rewrite H. unfold write_csv.
    apply process_rows_width in H as [_ Hw]. by rewrite mismatch_false.
  - by apply process_rows_Ok in H as (raw & _ & _ & Hs).
  - apply process_rows_Ok in H as (raw & Hraw & Hperm & _). eauto.
  - reflexivity.
  - intros gin chi Hg3 Hg2 Hc3 Hc2.
    unfold sort_results, sort_key, list_getitem. simpl.
    rewrite Hg3, Hg2, Hc3, Hc2. done.
Qed.

(** C10. When the process branch has rows, there are as many as there are
    persisted records, every row has the twelve fields of the header, and
    the mismatch check passes: the header and the rows are written and the
    branch returns 0.  Every row the processor returns has twelve fields. *)
Theorem rows_match_header repos outputs rows :
  rows_of repos outputs = Ok rows ->
  length rows = length outputs /\
  Forall (fun r => length r = 12%nat /\ length r = length headers) rows /\
  main_of repos outputs
  = {| ended := Ok 0; stdout := headers :: rows; stderr := [] |} /\
  (forall file r, process file = Ok r -> length r = 12%nat).
Proof.
  intros H. pose proof (process_rows_width _ _ _ H) as [Hlen Hw].
  split; [done|]. split; [|split].
  - eapply Forall_impl; [exact Hw|]. intros r Hr. by rewrite Hr.
  - unfold main_process. rewrite H. unfold write_csv.
    by rewrite mismatch_false.
  - intros file r Hr. by apply process_output_length in Hr.
Qed.

End EmitClaims.

(** ** Missing fields *)

Section MissingFields.

Variable float : Type.
Variable str_float : float -> string.
Variable urlparse_path : string -> result string.

Local Abbreviation process := (process_output float str_float urlparse_path).
Local Abbreviation rows_of := (process_rows float str_float urlparse_path).
Local Abbreviation main_of := (main_process float str_float urlparse_path).
Local Abbreviation missing_field := (missing_field float).

Lemma languages_of_inhabited lang : exists l, l ∈ languages_of lang.
Proof.
  unfold languages_of. destruct (String.eqb lang JS_TS_LANGUAGE).
  - exists "JavaScript". by left.
  - exists lang. by left.
Qed.

Lemma loc_items_Ok (data : analysis_record float) langs loc lang :
  py_sum (loc_items float data langs) = Ok loc -> lang ∈ langs ->
  exists t stats,
    tokei data = Some t /\ t !! lang = Some stats /\
    is_Some (blanks stats) /\ is_Some (code stats) /\ is_Some (comments stats).
Proof.
  intros H Hlang. apply py_sum_from_Ok in H as (ns & Hitems & _).
  assert (Hitem : forall key, key ∈ loc_keys ->
            exists n, tokei_item float data lang key = Ok n).
  { intros key Hkey.
    assert (Hin : tokei_item float data lang key ∈ loc_items float data langs).
    { unfold loc_items. apply list_elem_of_bind. exists lang. split; [|done].
      apply list_elem_of_bind. exists key. split; [|done].
      by apply list_elem_of_singleton. }
    rewrite Hitems in Hin. apply list_elem_of_fmap in Hin as (n & Hn & _). eauto. }
  destruct (Hitem ("blanks", blanks)) as [n1 H1]; [set_solver|].
  destruct (Hitem ("code", code)) as [n2 H2]; [set_solver|].
  destruct (Hitem ("comments", comments)) as [n3 H3]; [set_solver|].
  unfold tokei_item, dict_getitem in *.
  apply bind_Ok in H1 as (t & Ht & H1). apply getitem_Ok in Ht.
  apply bind_Ok in H1 as (stats & Hs & H1). apply getitem_Ok in Hs, H1.
  rewrite Ht in H2, H3. simpl in H2, H3. rewrite Hs in H2, H3.
  apply getitem_Ok in H2, H3. simpl in *.
  exists t, stats. eauto 10.
Qed.

Lemma missing_field_raises file :
  missing_field (file_json file) -> raises (process file).
Proof.
  intros Hmiss. apply not_Ok_raises. intros row Hrow.
  apply process_output_Ok in Hrow.
  destruct Hrow as [lang loc sg rs url p pre org repo h fw rt
                    Hlang Hloc Hsg Hrs Hcid Hmv Hurl Hp Hsplit Hh Hfw Hrt].
  destruct Hmiss as [H|H|H|H|H|H|H|l lang' t Hl Hin Ht H
                    |l lang' t stats Hl Hin Ht Hst H|sg' Hsg' H
                    |sg' rs' r Hsg' Hrs' Hr H|sg' rs' r Hsg' Hrs' Hr H
                    |sg' rs' r e Hsg' Hrs' Hr He H
                    |sg' rs' r e mvs mv b Hsg' Hrs' Hr He Hm Hrole Hb H];
    try congruence.
  - destruct (languages_of_inhabited lang) as [lang' Hin].
    destruct (loc_items_Ok _ _ _ lang' Hloc Hin) as (t' & _ & Ht' & _).
    congruence.
  - assert (l = lang) as -> by congruence.
    destruct (loc_items_Ok _ _ _ lang' Hloc Hin) as (t' & st & Ht' & Hst & _).
    congruence.
  - assert (l = lang) as -> by congruence.
    destruct (loc_items_Ok _ _ _ lang' Hloc Hin)
      as (t' & st & Ht' & Hst' & [? H1] & [? H2] & [? H3]).
    assert (t' = t) as -> by congruence.
    assert (st = stats) as -> by congruence.
    destruct H as [H|[H|H]]; congruence.
  - assert (rs' = rs) as -> by congruence.
    rewrite Forall_forall in Hcid. destruct (Hcid r Hr) as [cid Hc]. congruence.
  - assert (rs' = rs) as -> by congruence.
    rewrite Forall_forall in Hmv. destruct (Hmv r Hr) as (e & mvs & He & _).
    congruence.
  - assert (rs' = rs) as -> by congruence.
    rewrite Forall_forall in Hmv. destruct (Hmv r Hr) as (e' & mvs & He' & Hm & _).
    congruence.
  - assert (rs' = rs) as -> by congruence.
    rewrite Forall_forall in Hmv.
    destruct (Hmv r Hr) as (e' & mvs' & He' & Hm' & Hb').
    assert (e' = e) as -> by congruence.
    assert (mvs' = mvs) as -> by congruence.
    destruct (Hb' mv b Hrole Hb) as [s Hs]. congruence.
Qed.

(** C9. A record that lacks a field the processor expects makes the
    processor raise instead of returning a row, and one such record among
    the persisted files makes the whole process branch end in an exception:
    no row of any record is written. *)
Theorem missing_field_aborts repos outputs file :
  file ∈ outputs -> missing_field (file_json file) ->
  raises (process file) /\
  raises (rows_of repos outputs) /\
  (exists e, main_of repos outputs = aborted e) /\
  stdout (main_of repos outputs) = [].
Proof.
  intros Hin Hmiss. pose proof (missing_field_raises file Hmiss) as Hraise.
  assert (Hrows : raises (rows_of repos outputs)).
  { unfold process_rows. destruct (repos_given repos) eqn:Hg.
    - rewrite (filter_paths_raises float repos outputs file Hg Hin).
      by exists TypeError.
    - destruct (map_result_raises process outputs file Hin Hraise) as [e He].
      simpl. rewrite He. by exists e. }
  split; [done|]. split; [done|]. destruct Hrows as [e He].
  unfold main_process. rewrite He. eauto.
Qed.

End MissingFields.

(** ** The [--repos] filter *)

Lemma py_any_Ok (bs : list bool) : py_any (Ok <$> bs) = Ok (existsb id bs).
Proof. induction bs as [|[|] bs IH]; simpl; [done..|exact IH]. Qed.

Lemma any_repo_in_str repos s :
  any_repo_in repos (OStr s)
  = Ok (existsb (fun repo => str_in repo s) (default [] repos)).
Proof.
  unfold any_repo_in. generalize (default [] repos) as rs. intros rs.
  induction rs as [|r rs IH]; simpl; [done|].
  destruct (str_in r s); simpl; [done | exact IH].
Qed.

Lemma filter_result_Ok {A} (keep : A -> bool) (xs : list A) :
  filter_result (fun x => Ok (keep x)) xs = Ok (List.filter keep xs).
Proof.
  induction xs as [|x xs IH]; simpl; [done|]. rewrite IH. by destruct (keep x).
Qed.

Lemma filter_result_ext {A} (f g : A -> result bool) (xs : list A) :
  (forall x, f x = g x) -> filter_result f xs = filter_result g xs.
Proof.
  intros Hfg. induction xs as [|x xs IH]; simpl; [done|]. by rewrite Hfg, IH.
Qed.

(** The entries analyze mode selects: all of them without the flag, else
    those whose URL contains one of the substrings; in registry order. *)
Lemma analyses_selected repos :
  analyses repos
  = Ok (List.filter
          (fun lfr => negb (repos_given repos)
                      || existsb (fun repo => str_in repo lfr.2)
                                 (default [] repos))
          harness_entries).
Proof.
  unfold analyses. rewrite <- filter_result_Ok. apply filter_result_ext.
  intros lfr. destruct (repos_given repos); simpl; [|done].
  apply any_repo_in_str.
Qed.

Lemma selected_elem repos (entries : list (string * string * string)) x :
  x ∈ List.filter
        (fun lfr => negb (repos_given repos)
                    || existsb (fun repo => str_in repo lfr.2)
                               (default [] repos)) entries <->
  x ∈ entries /\
  (repos_given repos = false \/
   exists repo, repo ∈ default [] repos /\ occurs_in repo x.2).
Proof.
  rewrite list_elem_of_In, filter_In, <- list_elem_of_In, orb_true_iff,
    negb_true_iff, existsb_exists.
  split; intros [Hin Hsel]; (split; [done|]); destruct Hsel as [Hg|(r & Hr & Ho)];
    [by left| |by left|].
  - right. exists r. by rewrite list_elem_of_In, <- str_in_occurs.
  - right. exists r. by rewrite <- list_elem_of_In, str_in_occurs.
Qed.

Lemma analyses_elem repos lang fw url :
  exists todo,
    analyses repos = Ok todo /\
    ((lang, fw, url) ∈ todo <->
     (lang, fw, url) ∈ harness_entries /\
     (repos_given repos = false \/
      exists repo, repo ∈ default [] repos /\ occurs_in repo url)).
Proof.
  eexists. split; [apply analyses_selected|].
  apply (selected_elem repos harness_entries (lang, fw, url)).
Qed.

(** C5. In process mode the filter is applied to [pathlib.Path] objects:
    with [--repos flask] and the one persisted file [output/b.flask.json],
    whose name contains the substring, the branch ends in [TypeError] and
    writes nothing, although without the flag the same file gives the
    header and one row. *)
Theorem repos_filter_in_process_mode :
  Small.main_process (Some ["flask"]) [Small.flask_file Small.two_findings]
  = aborted TypeError /\
  Small.main_process None [Small.flask_file Small.two_findings]
  = {| ended := Ok 0;
       stdout := [headers;
                  ["a/b"; "0123456"; "flask"; "Python"; "24"; "12.34";
                   "2"; "1"; "0"; "0"; "0"; "0"]];
       stderr := [] |} /\
  occurs_in "flask" "b.flask.json".
Proof.
  split; [reflexivity|]. split; [vm_compute; reflexivity|].
  by exists "b.", ".json".
Qed.

(** With the flag, process mode raises as soon as there is a file. *)
Lemma process_mode_filter_raises float str_float urlparse_path repos
    (outputs : list (output_file float)) :
  repos_given repos = true -> outputs <> [] ->
  main_process float str_float urlparse_path repos outputs = aborted TypeError.
Proof.
  intros Hg Hne. destruct outputs as [|o outputs]; [done|].
  unfold main_process, process_rows. rewrite Hg.
  rewrite (filter_paths_raises float repos (o :: outputs) o Hg); [done|by left].
Qed.

(** ** The analyzer and the clone *)

Section AnalyzeFacts.

Variable float : Type.
Variable urlparse_path : string -> result string.
Variable os : Type.
Variable path_exists : os -> path -> bool.
Variable path_resolve : os -> path -> path.
Variable subprocess_run :
  list string -> option path -> os -> option (Z * string * string) * os.
Variable json_loads_tokei : string -> result (gmap string lang_stats).
Variable json_loads_semgrep : string -> result semgrep_t.
Variable monotonic : os -> float.
Variable round_elapsed : float -> float -> float.
Variable json_dump : analysis_record float -> path -> os -> result os.

Local Abbreviation analyze :=
  (analyze_repository float urlparse_path os path_exists path_resolve
     subprocess_run json_loads_tokei json_loads_semgrep monotonic
     round_elapsed json_dump).

(** When the target directory does not exist, the strict resolution that
    precedes the existence test raises: nothing is cloned, no program is
    run, and the only trace is the first progress line. *)
Lemma analyze_repository_missing_target harness_dir output_dir lang fw url
    org repo (w : world float os) :
  get_org_repo urlparse_path url = Ok (org, repo) ->
  path_exists (w_os w) (path_join harness_dir repo) = false ->
  analyze harness_dir output_dir lang fw url w
  = (Raise FileNotFoundError,
     {| w_os := w_os w; w_stdout := w_stdout w;
        w_stderr := (w_stderr w ++ [MsgAnalyzing lang fw url])%list |}).
Proof.
  intros Hurl Hmissing.
  unfold analyze_repository.
  cbv beta iota zeta delta
    [mbind M_bind bind print_stderr lift resolve_strict get_os raise].
  rewrite Hurl. cbn [w_os w_stdout w_stderr snd]. rewrite Hmissing.
  reflexivity.
Qed.

(** So a run that succeeds found the directory already there: the branch
    that clones is never taken. *)
Lemma analyze_repository_Ok_target_existed harness_dir output_dir lang fw url
    org repo (w : world float os) :
  get_org_repo urlparse_path url = Ok (org, repo) ->
  (analyze harness_dir output_dir lang fw url w).1 = Ok () ->
  path_exists (w_os w) (path_join harness_dir repo) = true.
Proof.
  intros Hurl Hok.
  destruct (path_exists (w_os w) (path_join harness_dir repo)) eqn:He; [done|].
  rewrite (analyze_repository_missing_target _ _ _ _ _ org repo w Hurl He)
    in Hok.
  discriminate.
Qed.

End AnalyzeFacts.

(** ** The entry point in process mode *)

Section MainFacts.

Variable float : Type.
Variable str_float : float -> string.
Variable urlparse_path : string -> result string.
Variable os : Type.
Variable path_exists : os -> path -> bool.
Variable path_resolve : os -> path -> path.
Variable path_mkdir : path -> os -> result os.
Variable path_glob_json : os -> path -> list (output_file float).
Variable subprocess_run :
  list string -> option path -> os -> option (Z * string * string) * os.
Variable json_loads_tokei : string -> result (gmap string lang_stats).
Variable json_loads_semgrep : string -> result semgrep_t.
Variable monotonic : os -> float.
Variable round_elapsed : float -> float -> float.
Variable json_dump : analysis_record float -> path -> os -> result os.

Local Abbreviation main_of :=
  (main float str_float urlparse_path os path_exists path_resolve path_mkdir
     path_glob_json subprocess_run json_loads_tokei json_loads_semgrep
     monotonic round_elapsed json_dump).

(** With [--process], once the two directories are there, [main] is the
    process branch on the JSON files of the output directory: what the
    branch writes is appended to the two streams and its end is the end of
    [main]. *)
Lemma main_process_mode args (w : world float os) o1 o2 :
  arg_analyze args = false -> arg_process args = true ->
  path_mkdir (arg_harness_dir args) (w_os w) = Ok o1 ->
  path_mkdir (arg_output_dir args) o1 = Ok o2 ->
  let branch :=
    main_process float str_float urlparse_path (arg_repos args)
      (path_glob_json o2 (arg_output_dir args)) in
  main_of args w
  = (ended branch,
     {| w_os := o2;
        w_stdout := (w_stdout w ++ stdout branch)%list;
        w_stderr := (w_stderr w ++ stderr branch)%list |}).
Proof.
  intros Ha Hp H1 H2. unfold main. rewrite Ha, Hp.
  cbv beta iota zeta delta
    [mbind M_bind bind mkdir_exist_ok lift get_os set_os run_process].
  rewrite H1. cbn [w_os w_stdout w_stderr]. rewrite H2. reflexivity.
Qed.

End MainFacts.

(** C4. On a file system where the harness directory exists and the
    directory of the repository does not, the analyzer raises
    [FileNotFoundError] right after its first progress line: the file system
    is unchanged, so nothing was cloned, and no tool was run.  The clone
    itself would have created the directory, and with the directory in
    place the analyzer runs to the end without cloning. *)
Theorem analyzer_does_not_clone :
  let url := "https://github.com/apache/airflow" in
  let before := {| w_os := [["harness"]; ["output"]];
                   w_stdout := []; w_stderr := [] |} in
  Small.analyze_repository ["harness"] ["output"] "Python" "flask" url before
  = (Raise FileNotFoundError,
     {| w_os := [["harness"]; ["output"]]; w_stdout := [];
        w_stderr := [MsgAnalyzing "Python" "flask" url] |}) /\
  Small.path_exists
    (Small.subprocess_run ["git"; "clone"; url] (Some ["harness"])
       [["harness"]; ["output"]]).2
    ["harness"; "airflow"] = true /\
  (Small.analyze_repository ["harness"] ["output"] "Python" "flask" url
     {| w_os := [["harness"; "airflow"]; ["harness"]; ["output"]];
        w_stdout := []; w_stderr := [] |}).1 = Ok ().
Proof. split; [|split]; vm_compute; reflexivity. Qed.

(** ** The statements at concrete records *)

(** A finding that has an identifier and nothing else, as the findings of
    the worked example are written out, has no [extra] object: the processor
    raises on it. *)
Lemma bare_findings_raise :
  Small.process_output
    (Small.flask_file
       [{| check_id := Some "flask-route-get"; extra := None |};
        {| check_id := Some "flask-authenticated-route"; extra := None |}])
  = Raise (KeyError "extra").
Proof. vm_compute. reflexivity. Qed.

Lemma category_counts_witness :
  exists sg rs,
    semgrep (file_json (Small.flask_file Small.two_findings)) = Some sg /\
    results sg = Some rs /\
    ["a/b"; "0123456"; "flask"; "Python"; "24"; "12.34";
     "2"; "1"; "0"; "0"; "0"; "0"] !! 6%nat
    = Some (str_int (findings_with "-route" rs)) /\
    ["a/b"; "0123456"; "flask"; "Python"; "24"; "12.34";
     "2"; "1"; "0"; "0"; "0"; "0"] !! 7%nat
    = Some (str_int (findings_with "-authenticated" rs)) /\
    ["a/b"; "0123456"; "flask"; "Python"; "24"; "12.34";
     "2"; "1"; "0"; "0"; "0"; "0"] !! 8%nat
    = Some (str_int (findings_with "-unauthenticated" rs)) /\
    ["a/b"; "0123456"; "flask"; "Python"; "24"; "12.34";
     "2"; "1"; "0"; "0"; "0"; "0"] !! 9%nat
    = Some (str_int (findings_with "-authorized" rs)) /\
    ["a/b"; "0123456"; "flask"; "Python"; "24"; "12.34";
     "2"; "1"; "0"; "0"; "0"; "0"] !! 10%nat
    = Some (str_int (findings_with "-unauthorized" rs)) /\
    (forall marker,
       findings_with marker rs
       = Z.of_nat (length (List.filter (has_marker marker) rs)) /\
       0 <= findings_with marker rs <= Z.of_nat (length rs)) /\
    (forall marker r,
       has_marker marker r = true <-> check_id_contains marker r).
Proof.
  apply (category_counts Small.float Small.str_float Small.urlparse_path
           (Small.flask_file Small.two_findings)).
  vm_compute. reflexivity.
Defined.

Lemma role_count_distinct_witness :
  exists sg rs (roles : gset string),
    semgrep (file_json (Small.flask_file Small.role_findings)) = Some sg /\
    results sg = Some rs /\
    (forall s, s ∈ roles <-> bound_literal rs s) /\
    size roles = length (remove_dups (role_literals rs)) /\
    ["a/b"; "0123456"; "flask"; "Python"; "24"; "12.34";
     "3"; "0"; "0"; "2"; "0"; "2"] !! 11%nat
    = Some (str_int (Z.of_nat (size roles))).
Proof.
  apply (role_count_distinct Small.float Small.str_float Small.urlparse_path
           (Small.flask_file Small.role_findings)).
  vm_compute. reflexivity.
Defined.

Lemma worked_example_witness :
  Small.process_output (Small.flask_file Small.two_findings)
  = Ok ["a/b"; str_take 7 "0123456789abcdef0123456789abcdef01234567";
        "flask"; "Python"; str_int (1 + 20 + 3); Small.str_float 1234;
        "2"; "1"; "0"; "0"; "0"; "0"].
Proof.
  apply (worked_example Small.float Small.str_float Small.urlparse_path
           ["output"; "b.flask.json"]
           "0123456789abcdef0123456789abcdef01234567"
           {[ "Python" := {| blanks := Some 1; code := Some 20;
                             comments := Some 3 |} ]}
           1 20 3 1234 ∅ ∅).
  - vm_compute. reflexivity.
  - vm_compute. reflexivity.
  - intros mv _. split; apply lookup_empty.
Defined.

Lemma name_and_short_hash_witness :
  exists url p pre org repo h short rest,
    repository (file_json (Small.flask_file Small.two_findings)) = Some url /\
    Small.urlparse_path url = Ok p /\
    p = pre ++ "/" ++ org ++ "/" ++ repo /\
    ~ occurs_in "/" org /\ ~ occurs_in "/" repo /\
    ["a/b"; "0123456"; "flask"; "Python"; "24"; "12.34";
     "2"; "1"; "0"; "0"; "0"; "0"] !! 0%nat = Some (org ++ "/" ++ repo) /\
    hash (file_json (Small.flask_file Small.two_findings)) = Some h /\
    ["a/b"; "0123456"; "flask"; "Python"; "24"; "12.34";
     "2"; "1"; "0"; "0"; "0"; "0"] !! 1%nat = Some short /\
    h = short ++ rest /\
    String.length short = Nat.min 7 (String.length h).
Proof.
  apply (name_and_short_hash Small.float Small.str_float Small.urlparse_path
           (Small.flask_file Small.two_findings)).
  vm_compute. reflexivity.
Defined.

Lemma mismatch_check_witness :
  stderr (write_csv (float:=Small.float) [["a/b"; "0123456"]]) = [MsgMismatch]
  /\ exit_status (write_csv (float:=Small.float) [["a/b"; "0123456"]]) = 1
  /\ stdout (write_csv (float:=Small.float) [["a/b"; "0123456"]]) = [].
Proof.
  apply (mismatch_check Small.float Small.str_float Small.urlparse_path
           [["a/b"; "0123456"]]).
  exists ["a/b"; "0123456"]. split; [by left|]. simpl. lia.
Defined.

Lemma rows_sorted_by_key_witness :
  stdout (Small.main_process None
            [Small.flask_file Small.two_findings;
             Small.flask_file Small.role_findings])
  = [headers;
     ["a/b"; "0123456"; "flask"; "Python"; "24"; "12.34";
      "2"; "1"; "0"; "0"; "0"; "0"];
     ["a/b"; "0123456"; "flask"; "Python"; "24"; "12.34";
      "3"; "0"; "0"; "2"; "0"; "2"]].
Proof.
  apply (rows_sorted_by_key Small.float Small.str_float Small.urlparse_path
           None
           [Small.flask_file Small.two_findings;
            Small.flask_file Small.role_findings]).
  vm_compute. reflexivity.
Defined.

Lemma missing_field_aborts_witness :
  raises (Small.process_output Small.record_without_hash) /\
  raises (process_rows Small.float Small.str_float Small.urlparse_path None
            [Small.flask_file Small.two_findings; Small.record_without_hash]) /\
  (exists e, Small.main_process None
               [Small.flask_file Small.two_findings; Small.record_without_hash]
             = aborted e) /\
  stdout (Small.main_process None
            [Small.flask_file Small.two_findings; Small.record_without_hash]) = [].
Proof.
  apply (missing_field_aborts Small.float Small.str_float Small.urlparse_path
           None [Small.flask_file Small.two_findings; Small.record_without_hash]
           Small.record_without_hash).
  - right. left.
  - apply missing_hash. reflexivity.
Defined.

Lemma rows_match_header_witness :
  length [["a/b"; "0123456"; "flask"; "Python"; "24"; "12.34";
           "2"; "1"; "0"; "0"; "0"; "0"]]
  = length [Small.flask_file Small.two_findings] /\
  Forall (fun r => length r = 12%nat /\ length r = length headers)
    [["a/b"; "0123456"; "flask"; "Python"; "24"; "12.34";
      "2"; "1"; "0"; "0"; "0"; "0"]] /\
  Small.main_process None [Small.flask_file Small.two_findings]
  = {| ended := Ok 0;
       stdout := [headers;
                  ["a/b"; "0123456"; "flask"; "Python"; "24"; "12.34";
                   "2"; "1"; "0"; "0"; "0"; "0"]];
       stderr := [] |} /\
  (forall file r, Small.process_output file = Ok r -> length r = 12%nat).
Proof.
  apply (rows_match_header Small.float Small.str_float Small.urlparse_path
           None [Small.flask_file Small.two_findings]).
  vm_compute. reflexivity.
Defined.

(** ** Further properties of the result processor *)

Section ProcessMore.

Variable float : Type.
Variable str_float : float -> string.
Variable urlparse_path : string -> result string.

Local Abbreviation process := (process_output float str_float urlparse_path).
Local Abbreviation missing_field := (missing_field float).

Lemma py_sum_from_values acc (ns : list Z) :
  py_sum_from acc (Ok <$> ns) = Ok (acc + foldr Z.add 0 ns).
Proof.
  revert acc. induction ns as [|n ns IH]; intros acc; simpl.
  - f_equal. lia.
  - rewrite IH. f_equal. lia.
Qed.

(** The three counts of the entry of one language, as the generator reads
    them. *)
Lemma loc_items_one (data : analysis_record float) t lang b c m :
  tokei data = Some t ->
  t !! lang = Some {| blanks := Some b; code := Some c; comments := Some m |} ->
  (key ← loc_keys; [tokei_item float data lang key]) = Ok <$> [b; c; m].
Proof.
  intros Ht Hl. unfold loc_keys, tokei_item, dict_getitem. simpl.
  rewrite Ht. simpl. rewrite Hl. done.
Qed.

Lemma loc_items_nil (data : analysis_record float) :
  loc_items float data [] = [].
Proof. reflexivity. Qed.

Lemma loc_items_cons (data : analysis_record float) lang langs :
  loc_items float data (lang :: langs)
  = ((key ← loc_keys; [tokei_item float data lang key])
     ++ loc_items float data langs)%list.
Proof. reflexivity. Qed.

Lemma stats_eta (st : lang_stats) b c m :
  blanks st = Some b -> code st = Some c -> comments st = Some m ->
  st = {| blanks := Some b; code := Some c; comments := Some m |}.
Proof. destruct st; simpl; intros; congruence. Qed.

(** X1. For a record of any language but the combined
    JavaScript/TypeScript one, the lines-of-code field of the row is the
    decimal sum of the blank, code and comment counts of the entry of that
    language. *)
Theorem lines_of_code (file : output_file float) (row : list string) lang :
  process file = Ok row ->
  language (file_json file) = Some lang ->
  lang <> JS_TS_LANGUAGE ->
  exists t st b c m,
    tokei (file_json file) = Some t /\ t !! lang = Some st /\
    blanks st = Some b /\ code st = Some c /\ comments st = Some m /\
    row !! 4%nat = Some (str_int (b + c + m)).
Proof.
  intros H Hlang Hne. apply process_output_Ok in H.
  destruct H as [lang' loc sg rs url p pre org repo h fw rt
                 Hlang' Hloc _ _ _ _ _ _ _ _ _ _].
  assert (lang' = lang) as -> by congruence.
  assert (Hl : languages_of lang = [lang]).
  { unfold languages_of. by apply String.eqb_neq in Hne as ->. }
  rewrite Hl in Hloc.
  destruct (loc_items_Ok float urlparse_path _ _ _ lang Hloc)
    as (t & st & Ht & Hst & [b Hb] & [c Hc] & [m Hm]); [by left|].
  exists t, st, b, c, m. repeat (split; [done|]).
  rewrite (stats_eta st b c m Hb Hc Hm) in Hst.
  rewrite loc_items_cons, loc_items_nil, app_nil_r in Hloc.
  rewrite (loc_items_one _ t lang b c m Ht Hst) in Hloc.
  unfold py_sum in Hloc. rewrite py_sum_from_values in Hloc.
  injection Hloc as <-. simpl. do 2 f_equal. lia.
Qed.

(** X2. For a JavaScript/TypeScript record the language field stays the
    combined label and the lines-of-code field is the decimal sum of the six
    counts of the JavaScript entry and of the TypeScript entry. *)
Theorem lines_of_code_js_ts (file : output_file float) (row : list string) :
  process file = Ok row ->
  language (file_json file) = Some JS_TS_LANGUAGE ->
  exists t js ts jb jc jm tb tc tm,
    tokei (file_json file) = Some t /\
    t !! "JavaScript" = Some js /\ t !! "TypeScript" = Some ts /\
    blanks js = Some jb /\ code js = Some jc /\ comments js = Some jm /\
    blanks ts = Some tb /\ code ts = Some tc /\ comments ts = Some tm /\
    row !! 3%nat = Some JS_TS_LANGUAGE /\
    row !! 4%nat = Some (str_int (jb + jc + jm + (tb + tc + tm))).
Proof.
  intros H Hlang. apply process_output_Ok in H.
  destruct H as [lang' loc sg rs url p pre org repo h fw rt
                 Hlang' Hloc _ _ _ _ _ _ _ _ _ _].
  assert (lang' = JS_TS_LANGUAGE) as -> by congruence.
  change (languages_of JS_TS_LANGUAGE) with ["JavaScript"; "TypeScript"] in Hloc.
  destruct (loc_items_Ok float urlparse_path _ _ _ "JavaScript" Hloc)
    as (t & js & Ht & Hjs & [jb Hjb] & [jc Hjc] & [jm Hjm]); [by left|].
  destruct (loc_items_Ok float urlparse_path _ _ _ "TypeScript" Hloc)
    as (t' & ts & Ht' & Hts & [tb Htb] & [tc Htc] & [tm Htm]);
    [by right; left|].
  assert (t' = t) as -> by congruence.
  exists t, js, ts, jb, jc, jm, tb, tc, tm. repeat (split; [done|]).
  rewrite (stats_eta js jb jc jm Hjb Hjc Hjm) in Hjs.
  rewrite (stats_eta ts tb tc tm Htb Htc Htm) in Hts.
  rewrite !loc_items_cons, loc_items_nil, app_nil_r in Hloc.
  rewrite (loc_items_one _ t "JavaScript" jb jc jm Ht Hjs) in Hloc.
  rewrite (loc_items_one _ t "TypeScript" tb tc tm Ht Hts) in Hloc.
  rewrite <- fmap_app in Hloc.
  unfold py_sum in Hloc. rewrite py_sum_from_values in Hloc.
  injection Hloc as <-. simpl. do 2 f_equal. lia.
Qed.

(** X3. A JavaScript/TypeScript record whose line counts have a complete
    JavaScript entry and no TypeScript entry is not processed: the processor
    raises [KeyError] for the key [TypeScript]. *)
Theorem js_ts_needs_typescript (file : output_file float) t jb jc jm :
  language (file_json file) = Some JS_TS_LANGUAGE ->
  tokei (file_json file) = Some t ->
  t !! "JavaScript" = Some {| blanks := Some jb; code := Some jc;
                              comments := Some jm |} ->
  t !! "TypeScript" = None ->
  process file = Raise (KeyError "TypeScript").
Proof.
  intros Hlang Ht Hjs Hts. unfold process_output. rewrite Hlang.
  cbn [getitem mbind result_bind].
  change (String.eqb JS_TS_LANGUAGE JS_TS_LANGUAGE) with true. cbv iota.
  rewrite !loc_items_cons, loc_items_nil, app_nil_r.
  rewrite (loc_items_one _ t "JavaScript" jb jc jm Ht Hjs).
  unfold loc_keys, tokei_item, dict_getitem. simpl. rewrite Ht. simpl.
  rewrite Hts. done.
Qed.

(** X4. A record with an empty list of findings gives 0 for the route
    count, the four authentication and authorization counts and the role
    count. *)
Theorem no_findings_all_zero (file : output_file float) (row : list string) sg :
  process file = Ok row ->
  semgrep (file_json file) = Some sg -> results sg = Some [] ->
  row !! 6%nat = Some "0" /\ row !! 7%nat = Some "0" /\
  row !! 8%nat = Some "0" /\ row !! 9%nat = Some "0" /\
  row !! 10%nat = Some "0" /\ row !! 11%nat = Some "0".
Proof.
  intros H Hsg Hrs. apply process_output_Ok in H.
  destruct H as [lang loc sg' rs url p pre org repo h fw rt
                 _ _ Hsg' Hrs' _ _ _ _ _ _ _ _].
  assert (sg' = sg) as -> by congruence.
  assert (rs = []) as -> by congruence.
  repeat split; reflexivity.
Qed.

(** X5. The framework, language and duration fields of a row are those of
    the record, the duration printed as a float, so the key the rows are
    sorted by is the language of the record followed by its framework. *)
Theorem row_fields_of_record (file : output_file float) (row : list string) :
  process file = Ok row ->
  exists lang fw rt,
    language (file_json file) = Some lang /\
    framework (file_json file) = Some fw /\
    runtime (file_json file) = Some rt /\
    row !! 2%nat = Some fw /\ row !! 3%nat = Some lang /\
    row !! 5%nat = Some (str_float rt) /\
    sort_key row = Ok (lang ++ fw).
Proof.
  intros H. apply process_output_Ok in H.
  destruct H as [lang loc sg rs url p pre org repo h fw rt
                 Hlang _ _ _ _ _ _ _ _ _ Hfw Hrt].
  exists lang, fw, rt. repeat (split; [done|]). reflexivity.
Qed.

End ProcessMore.

(** ** When the processor returns *)

Section ProcessTotal.

Variable float : Type.
Variable str_float : float -> string.
Variable urlparse_path : string -> result string.

Local Abbreviation process := (process_output float str_float urlparse_path).
Local Abbreviation missing_field := (missing_field float).

Lemma py_sum_from_all_Ok acc (items : list (result Z)) :
  Forall (fun x => exists n, x = Ok n) items ->
  exists n, py_sum_from acc items = Ok n.
Proof.
  intros H. revert acc. induction H as [|x items [n ->] _ IH]; intros acc.
  - by exists acc.
  - simpl. apply IH.
Qed.

Lemma marker_count_total marker rs :
  Forall (fun r => is_Some (check_id r)) rs ->
  exists n, marker_count marker rs = Ok n.
Proof.
  intros H. apply py_sum_from_all_Ok. apply Forall_fmap.
  eapply Forall_impl; [exact H|]. intros r [cid Hc]. simpl. rewrite Hc.
  simpl. eauto.
Qed.

Lemma foldl_add_role_total (pairs : list (finding * string)) :
  Forall (fun rm => exists e mvs, extra rm.1 = Some e /\ metavars e = Some mvs /\
            forall b, mvs !! rm.2 = Some b -> is_Some (abstract_content b))
         pairs ->
  forall acc, exists roles, foldl add_role (Ok acc) pairs = Ok roles.
Proof.
  induction 1 as [|rm pairs (e & mvs & He & Hm & Hb) _ IH]; intros acc.
  - by exists acc.
  - change (foldl add_role (Ok acc) (rm :: pairs))
      with (foldl add_role (add_role (Ok acc) rm) pairs).
    assert (Hstep : exists acc', add_role (Ok acc) rm = Ok acc').
    { unfold add_role. simpl. rewrite He. simpl. rewrite Hm. simpl.
      destruct (mvs !! rm.2) as [b|] eqn:Hl; [|eauto].
      destruct (Hb b eq_refl) as [s Hs]. rewrite Hs. simpl. eauto. }
    destruct Hstep as [acc' ->]. apply IH.
Qed.

Lemma role_set_total rs :
  Forall (fun r => exists e mvs, extra r = Some e /\ metavars e = Some mvs /\
            forall mv b, mv ∈ ROLE_METAVARIABLES -> mvs !! mv = Some b ->
                         is_Some (abstract_content b)) rs ->
  exists roles, role_set rs = Ok roles.
Proof.
  intros H. apply foldl_add_role_total. apply Forall_forall.
  intros [r mv] Hin. apply list_elem_of_bind in Hin as (r' & Hin & Hr).
  apply list_elem_of_bind in Hin as (mv' & Hin & Hmv).
  apply list_elem_of_singleton in Hin. injection Hin as -> ->.
  rewrite Forall_forall in H. destruct (H r' Hr) as (e & mvs & He & Hm & Hb).
  exists e, mvs. split; [done|]. split; [done|]. intros b. by apply Hb.
Qed.

Lemma complete_loc (data : analysis_record float) lang :
  ~ missing_field data -> language data = Some lang ->
  exists loc, py_sum (loc_items float data (languages_of lang)) = Ok loc.
Proof.
  intros Hc Hlang. apply py_sum_from_all_Ok. apply Forall_forall.
  intros x Hx. apply list_elem_of_bind in Hx as (lang' & Hx & Hin).
  apply list_elem_of_bind in Hx as (key & Hx & Hkey).
  apply list_elem_of_singleton in Hx as ->.
  unfold tokei_item, dict_getitem.
  destruct (tokei data) as [t|] eqn:Ht;
    [|destruct Hc; by apply missing_tokei].
  simpl. destruct (t !! lang') as [st|] eqn:Hst;
    [|destruct Hc; by eapply missing_tokei_language].
  simpl.
  assert (Hall : is_Some (blanks st) /\ is_Some (code st)
                 /\ is_Some (comments st)).
  { destruct (blanks st) eqn:Hb, (code st) eqn:Hcd, (comments st) eqn:Hm;
      try (split; [eauto|split; eauto]);
      destruct Hc; eapply missing_tokei_count; eauto. }
  destruct Hall as ([b Hb] & [c Hcd] & [m Hm]).
  unfold loc_keys in Hkey.
  apply elem_of_cons in Hkey as [->|Hkey]; [simpl; rewrite Hb; simpl; eauto|].
  apply elem_of_cons in Hkey as [->|Hkey]; [simpl; rewrite Hcd; simpl; eauto|].
  apply list_elem_of_singleton in Hkey as ->. simpl. rewrite Hm. simpl. eauto.
Qed.

Lemma complete_record_Ok (file : output_file float) url p pre org repo :
  ~ missing_field (file_json file) ->
  repository (file_json file) = Some url ->
  urlparse_path url = Ok p ->
  split_on "/" p = [pre; org; repo] ->
  exists row, process file = Ok row.
Proof.
  intros Hc Hurl Hp Hsplit. set (data := file_json file) in *.
  destruct (language data) as [lang|] eqn:Hlang;
    [|destruct Hc; by apply missing_language].
  destruct (framework data) as [fw|] eqn:Hfw;
    [|destruct Hc; by apply missing_framework].
  destruct (hash data) as [h|] eqn:Hh;
    [|destruct Hc; by apply missing_hash].
  destruct (runtime data) as [rt|] eqn:Hrt;
    [|destruct Hc; by apply missing_runtime].
  destruct (semgrep data) as [sg|] eqn:Hsg;
    [|destruct Hc; by apply missing_semgrep].
  destruct (results sg) as [rs|] eqn:Hrs;
    [|destruct Hc; by eapply missing_results].
  destruct (complete_loc data lang Hc Hlang) as [loc Hloc].
  assert (Hcid : Forall (fun r => is_Some (check_id r)) rs).
  { apply Forall_forall. intros r Hr.
    destruct (check_id r) eqn:Hcid; [eauto|].
    destruct Hc. by eapply missing_check_id. }
  assert (Hmv : Forall (fun r => exists e mvs,
                  extra r = Some e /\ metavars e = Some mvs /\
                  forall mv b, mv ∈ ROLE_METAVARIABLES -> mvs !! mv = Some b ->
                               is_Some (abstract_content b)) rs).
  { apply Forall_forall. intros r Hr.
    destruct (extra r) as [e|] eqn:He;
      [|destruct Hc; by eapply missing_extra].
    destruct (metavars e) as [mvs|] eqn:Hm;
      [|destruct Hc; by eapply missing_metavars].
    exists e, mvs. split; [done|]. split; [done|]. intros mv b Hmv Hb.
    destruct (abstract_content b) eqn:Hab; [eauto|].
    destruct Hc. by eapply missing_abstract_content. }
  destruct (marker_count_total "-route" rs Hcid) as [c1 H1].
  destruct (marker_count_total "-authenticated" rs Hcid) as [c2 H2].
  destruct (marker_count_total "-unauthenticated" rs Hcid) as [c3 H3].
  destruct (marker_count_total "-authorized" rs Hcid) as [c4 H4].
  destruct (marker_count_total "-unauthorized" rs Hcid) as [c5 H5].
  destruct (role_set_total rs Hmv) as [roles Hroles].
  unfold process_output, get_org_repo. fold data.
  rewrite Hlang. cbn [getitem mbind result_bind].
  fold (languages_of lang). rewrite Hloc, Hsg. cbn [getitem mbind result_bind].
  rewrite Hrs. cbn [getitem mbind result_bind].
  rewrite H1, H2, H3, H4, H5, Hroles, Hurl. cbn [getitem mbind result_bind].
  rewrite Hp. cbn [mbind result_bind]. rewrite Hsplit.
  cbn [mbind result_bind]. rewrite Hh, Hfw, Hrt. cbn [getitem mbind result_bind].
  eauto.
Qed.

(** X6. A record that lacks none of the fields the processor expects and
    whose repository URL has a path of exactly three segments is processed:
    the processor returns a row.  With C9 this leaves a missing field, the
    shape of the URL and [urlparse] itself as the only causes of an
    exception. *)
Theorem complete_record_is_processed (file : output_file float)
    url p pre org repo :
  ~ missing_field (file_json file) ->
  repository (file_json file) = Some url ->
  urlparse_path url = Ok p ->
  split_on "/" p = [pre; org; repo] ->
  exists row, process file = Ok row.
Proof. apply complete_record_Ok. Qed.

End ProcessTotal.

(** ** The shape of a repository URL *)

Lemma split_on_app sep part rest :
  ~ occurs_in (String sep "") part ->
  split_on sep (part ++ String sep rest) = part :: split_on sep rest.
Proof.
  induction part as [|c part IH]; intros Hfree.
  - rewrite append_nil. simpl. by rewrite Ascii.eqb_refl.
  - rewrite append_cons. simpl. destruct (Ascii.eqb_spec c sep) as [->|Hne].
    + destruct Hfree. by exists "", part.
    + rewrite IH; [done|]. intros (pre & post & H). apply Hfree.
      exists (String c pre), post. by rewrite append_cons, H.
Qed.

Lemma split_on_free sep part :
  ~ occurs_in (String sep "") part -> split_on sep part = [part].
Proof.
  induction part as [|c part IH]; intros Hfree; [done|]. simpl.
  destruct (Ascii.eqb_spec c sep) as [->|Hne].
  - destruct Hfree. by exists "", part.
  - rewrite IH; [done|]. intros (pre & post & H). apply Hfree.
    exists (String c pre), post. by rewrite append_cons, H.
Qed.

Section OrgRepo.

Variable urlparse_path : string -> result string.

Local Abbreviation org_repo_of := (get_org_repo urlparse_path).

(** X7. [get_org_repo] returns [(org, repo)] exactly when the path of the
    URL is [pre/org/repo] with no separator inside the three segments; on
    any other path it raises [ValueError], and an exception of [urlparse]
    goes through. *)
Theorem get_org_repo_spec url :
  (forall org repo,
     org_repo_of url = Ok (org, repo) <->
     exists p pre,
       urlparse_path url = Ok p /\ p = pre ++ "/" ++ org ++ "/" ++ repo /\
       ~ occurs_in "/" pre /\ ~ occurs_in "/" org /\ ~ occurs_in "/" repo) /\
  (forall p, urlparse_path url = Ok p ->
     (exists org repo, org_repo_of url = Ok (org, repo)) \/
     org_repo_of url = Raise ValueError) /\
  (forall e, urlparse_path url = Raise e -> org_repo_of url = Raise e).
Proof.
  split; [|split].
  - intros org repo. split.
    + intros H. apply get_org_repo_Ok in H as (p & pre & Hp & Hs).
      exists p, pre. split; [done|].
      pose proof (concat_split_on "/" p) as Hjoin. rewrite Hs in Hjoin.
      split; [done|].
      repeat split; apply (split_on_sep_free "/" p); rewrite Hs; set_solver.
    + intros (p & pre & Hp & -> & Hpre & Horg & Hrepo).
      unfold get_org_repo. rewrite Hp. cbn [mbind result_bind].
      change (pre ++ "/" ++ org ++ "/" ++ repo)
        with (pre ++ String "/" (org ++ String "/" repo)).
      rewrite (split_on_app "/" pre), (split_on_app "/" org),
        (split_on_free "/" repo); done.
  - intros p Hp. unfold get_org_repo. rewrite Hp. cbn [mbind result_bind].
    destruct (split_on "/" p) as [|pre [|org [|repo [|]]]]; eauto.
  - intros e He. unfold get_org_repo. by rewrite He.
Qed.

End OrgRepo.

(** ** Rows with the same key *)

Lemma filter_snd_keyed k (l : list (string * row)) :
  Forall (fun kr => kr.1 = row_key kr.2) l ->
  List.filter (fun r => String.eqb (row_key r) k) (snd <$> l)
  = snd <$> List.filter (fun y => String.eqb y.1 k) l.
Proof.
  induction 1 as [|[key r] l Hk _ IH]; [done|]. simpl in Hk. subst key.
  rewrite fmap_cons. cbn [List.filter snd fst]. rewrite IH.
  by destruct (String.eqb (row_key r) k).
Qed.

(** X8. The sort keeps rows with the same key in the order in which they
    were given: for every key, the rows that have it come out as they went
    in. *)
Theorem sort_is_stable (rows sorted : list row) (k : string) :
  sort_results rows = Ok sorted ->
  List.filter (fun r => String.eqb (row_key r) k) sorted
  = List.filter (fun r => String.eqb (row_key r) k) rows.
Proof.
  unfold sort_results. intros H. apply bind_Ok in H as (keyed & Hk & H).
  injection H as <-. apply map_result_Ok in Hk.
  assert (Hsnd : snd <$> keyed = rows).
  { induction Hk as [|r kr rows keyed Hr _ IH]; [done|]. rewrite fmap_cons, IH.
    apply bind_Ok in Hr as (k' & _ & Hr). by injection Hr as <-. }
  assert (Hkey : Forall (fun kr => kr.1 = row_key kr.2) keyed).
  { clear Hsnd. induction Hk as [|r kr rows keyed Hr _ IH]; constructor; [|done].
    apply bind_Ok in Hr as (k' & Hk' & Hr). injection Hr as <-.
    by apply sort_key_Ok. }
  rewrite <- Hsnd, !filter_snd_keyed, sort_keyed_stable; [done..|].
  eapply Permutation_Forall; [symmetry; apply sort_keyed_perm | done].
Qed.

(** ** The entries of analyze mode *)

Lemma filter_sublist {A} (keep : A -> bool) (l : list A) :
  sublist (List.filter keep l) l.
Proof.
  induction l as [|x l IH]; simpl; [constructor|].
  destruct (keep x); by constructor.
Qed.

Lemma filter_all {A} (keep : A -> bool) (l : list A) :
  (forall x, keep x = true) -> List.filter keep l = l.
Proof.
  intros Hk. induction l as [|x l IH]; [done|]. simpl. by rewrite Hk, IH.
Qed.

(** X9. In analyze mode the list of entries to analyze is always built
    (the filter does not raise): it is a sublist of the registry in registry
    order, it holds an entry exactly when the flag is absent or the URL of
    the entry contains one of the substrings, and without the flag it is the
    whole registry. *)
Theorem analyze_mode_selection repos :
  exists todo,
    analyses repos = Ok todo /\
    sublist todo harness_entries /\
    (forall lang fw url,
       (lang, fw, url) ∈ todo <->
       (lang, fw, url) ∈ harness_entries /\
       (repos_given repos = false \/
        exists repo, repo ∈ default [] repos /\ occurs_in repo url)) /\
    (repos_given repos = false -> todo = harness_entries).
Proof.
  eexists. split; [apply analyses_selected|]. split; [apply filter_sublist|].
  split.
  - intros lang fw url.
    apply (selected_elem repos harness_entries (lang, fw, url)).
  - intros ->. by apply filter_all.
Qed.

(** ** Further properties of the analyzer *)

Section AnalyzeMore.

Variable float : Type.
Variable str_float : float -> string.
Variable urlparse_path : string -> result string.
Variable os : Type.
Variable path_exists : os -> path -> bool.
Variable path_resolve : os -> path -> path.
Variable subprocess_run :
  list string -> option path -> os -> option (Z * string * string) * os.
Variable json_loads_tokei : string -> result (gmap string lang_stats).
Variable json_loads_semgrep : string -> result semgrep_t.
Variable monotonic : os -> float.
Variable round_elapsed : float -> float -> float.
Variable json_dump : analysis_record float -> path -> os -> result os.

Local Abbreviation run := (run_cmd float os subprocess_run).
Local Abbreviation analyze :=
  (analyze_repository float urlparse_path os path_exists path_resolve
     subprocess_run json_loads_tokei json_loads_semgrep monotonic
     round_elapsed json_dump).
Local Abbreviation analyze_each :=
  (analyze_all float urlparse_path os path_exists path_resolve
     subprocess_run json_loads_tokei json_loads_semgrep monotonic
     round_elapsed json_dump).

Lemma M_bind_Ok {A B} (m : M float os A) (f : A -> M float os B) w b w' :
  bind float os m f w = (Ok b, w') ->
  exists a w1, m w = (Ok a, w1) /\ f a w1 = (Ok b, w').
Proof.
  unfold bind. destruct (m w) as [[a|e] w1]; [eauto | discriminate].
Qed.

Lemma print_stderr_Ok msg (w : world float os) u w' :
  print_stderr float os msg w = (Ok u, w') ->
  w_os w' = w_os w /\ w_stdout w' = w_stdout w.
Proof. unfold print_stderr. intros H. by injection H as _ <-. Qed.

Lemma lift_Ok {A} (r : result A) (w : world float os) a w' :
  lift float os r w = (Ok a, w') -> r = Ok a /\ w' = w.
Proof. unfold lift. intros H. by injection H as -> <-. Qed.

Lemma get_os_Ok (w : world float os) o w' :
  get_os float os w = (Ok o, w') -> o = w_os w /\ w' = w.
Proof. unfold get_os. intros H. by injection H as <- <-. Qed.

Lemma set_os_Ok o (w : world float os) u w' :
  set_os float os o w = (Ok u, w') ->
  w_os w' = o /\ w_stdout w' = w_stdout w.
Proof. unfold set_os. intros H. by injection H as _ <-. Qed.

Lemma resolve_strict_Ok p (w : world float os) q w' :
  resolve_strict float os path_exists path_resolve p w = (Ok q, w') ->
  path_exists (w_os w) p = true /\ q = path_resolve (w_os w) p /\ w' = w.
Proof.
  unfold resolve_strict, get_os, raise, lift, ret.
  cbv beta iota zeta delta [mbind M_bind bind].
  destruct (path_exists (w_os w) p); [|discriminate].
  intros H. by injection H as <- <-.
Qed.

(** What [run_cmd] does in each of its three cases. *)
Lemma run_cmd_cases args cwd (w : world float os) :
  run args cwd w
  = match subprocess_run args cwd (w_os w) with
    | (None, o') =>
        (Raise (SystemExit 1),
         {| w_os := o'; w_stdout := w_stdout w;
            w_stderr :=
              (w_stderr w ++ [MsgNotInstalled float (List.hd "" args)])%list |})
    | (Some (code, out, err), o') =>
        if code =? 0 then
          (Ok out, {| w_os := o'; w_stdout := w_stdout w;
                      w_stderr := w_stderr w |})
        else
          (Raise (SystemExit 1),
           {| w_os := o'; w_stdout := w_stdout w;
              w_stderr :=
                (w_stderr w ++ [MsgCommandFailed float args code err])%list |})
    end.
Proof.
  unfold run_cmd, get_os. cbv beta iota zeta delta [mbind M_bind bind].
  destruct (subprocess_run args cwd (w_os w)) as [[[[code out] err]|] o'].
  - unfold set_os, EX_OK. cbn [w_os w_stdout w_stderr].
    destruct (code =? 0); reflexivity.
  - reflexivity.
Qed.

Lemma run_cmd_Ok args cwd (w : world float os) out w' :
  run args cwd w = (Ok out, w') ->
  (exists err, subprocess_run args cwd (w_os w) = (Some (0, out, err), w_os w'))
  /\ w_stdout w' = w_stdout w /\ w_stderr w' = w_stderr w.
Proof.
  rewrite run_cmd_cases.
  destruct (subprocess_run args cwd (w_os w)) as [[[[code out'] err]|] o'];
    [|discriminate].
  destruct (Z.eqb_spec code 0) as [->|Hne]; [|discriminate].
  intros H. injection H as <- <-. eauto.
Qed.


Ltac m_step H a w1 Ha :=
  apply M_bind_Ok in H as (a & w1 & Ha & H); cbv beta zeta in H.

(** What a successful run of the analyzer has done. *)
Lemma analyze_repository_Ok_inv harness_dir output_dir lang fw url
    (w w' : world float os) :
  analyze harness_dir output_dir lang fw url w = (Ok (), w') ->
  exists org repo rev err o1 tokei_json semgrep_json rt o,
    get_org_repo urlparse_path url = Ok (org, repo) /\
    path_exists (w_os w) (path_join harness_dir repo) = true /\
    subprocess_run ["git"; "rev-parse"; "HEAD"]
      (Some (path_resolve (w_os w) (path_join harness_dir repo))) (w_os w)
    = (Some (0, rev, err), o1) /\
    json_dump
      {| language := Some lang; framework := Some fw;
         repository := Some url; hash := Some (str_strip rev);
         tokei := Some tokei_json; semgrep := Some semgrep_json;
         runtime := Some rt |}
      (path_join output_dir (repo ++ "." ++ fw ++ ".json")) o
    = Ok (w_os w') /\
    w_stdout w' = w_stdout w.
Proof.
  unfold analyze_repository. cbv beta delta [mbind M_bind]. intros H.
  m_step H u1 w1 H1. apply print_stderr_Ok in H1 as [Ho1 Hs1].
  m_step H org_repo w2 H2. apply lift_Ok in H2 as [Hurl ->].
  destruct org_repo as [org repo]. cbn [snd] in H.
  m_step H target_abs w3 H3. apply resolve_strict_Ok in H3 as (Hex & -> & ->).
  m_step H o4 w4 H4. apply get_os_Ok in H4 as [-> ->].
  rewrite Hex in H. cbn [negb] in H.
  m_step H u5 w5 H5. unfold ret in H5. injection H5 as _ <-.
  m_step H rv w6 H6. apply run_cmd_Ok in H6 as ([err Hrev] & Hs6 & _).
  m_step H u7 w7 H7. apply print_stderr_Ok in H7 as [_ Hs7].
  m_step H tokei_output w8 H8. apply run_cmd_Ok in H8 as (_ & Hs8 & _).
  m_step H tokei_json w9 H9. apply lift_Ok in H9 as [_ ->].
  m_step H semgrep_config w10 H10. apply run_cmd_Ok in H10 as (_ & Hs10 & _).
  m_step H o11 w11 H11. apply get_os_Ok in H11 as [-> ->].
  m_step H u12 w12 H12. apply run_cmd_Ok in H12 as (_ & Hs12 & _).
  m_step H u13 w13 H13. apply print_stderr_Ok in H13 as [_ Hs13].
  m_step H o14 w14 H14. apply get_os_Ok in H14 as [-> ->].
  m_step H semgrep_output w15 H15. apply run_cmd_Ok in H15 as (_ & Hs15 & _).
  m_step H o16 w16 H16. apply get_os_Ok in H16 as [-> ->].
  m_step H semgrep_json w17 H17. apply lift_Ok in H17 as [_ ->].
  m_step H u18 w18 H18. apply print_stderr_Ok in H18 as [Ho18 Hs18].
  m_step H o19 w19 H19. apply get_os_Ok in H19 as [-> ->].
  m_step H o20 w20 H20. apply lift_Ok in H20 as [Hdump ->].
  apply set_os_Ok in H as [Hos Hs].
  rewrite Ho1 in Hex, Hrev. rewrite <- Hos in Hdump.
  exists org, repo, rv, err, (w_os w6), tokei_json, semgrep_json.
  eexists. eexists. split; [done|]. split; [done|]. split; [done|].
  split; [exact Hdump|]. congruence.
Qed.

(** X11. When the analyzer returns, the directory of the repository was
    there from the start, and the last thing done is the write of one
    record, to [<output_dir>/<repo>.<framework>.json]: the record has all
    seven fields, its language, framework and repository are those of the
    registry entry, and its hash is the output of [git rev-parse HEAD], run
    in that directory, without the surrounding white space.  Nothing was
    written to standard output. *)
Theorem analyze_repository_writes_record harness_dir output_dir lang fw url
    (w w' : world float os) :
  analyze harness_dir output_dir lang fw url w = (Ok (), w') ->
  exists org repo rev err o1 record o,
    get_org_repo urlparse_path url = Ok (org, repo) /\
    path_exists (w_os w) (path_join harness_dir repo) = true /\
    subprocess_run ["git"; "rev-parse"; "HEAD"]
      (Some (path_resolve (w_os w) (path_join harness_dir repo))) (w_os w)
    = (Some (0, rev, err), o1) /\
    json_dump record (path_join output_dir (repo ++ "." ++ fw ++ ".json")) o
    = Ok (w_os w') /\
    language record = Some lang /\ framework record = Some fw /\
    repository record = Some url /\ hash record = Some (str_strip rev) /\
    is_Some (tokei record) /\ is_Some (semgrep record) /\
    is_Some (runtime record) /\
    w_stdout w' = w_stdout w.
Proof.
  intros H. apply analyze_repository_Ok_inv in H
    as (org & repo & rev & err & o1 & tk & sg & rt & o & Hurl & Hex & Hrev
        & Hdump & Hout).
  exists org, repo, rev, err, o1. eexists. exists o.
  split; [done|]. split; [done|]. split; [done|]. split; [exact Hdump|].
  cbn [language framework repository hash tokei semgrep runtime].
  repeat split; eauto.
Qed.




Lemma analyze_all_cons harness_dir output_dir lang fw url rest
    (w : world float os) :
  analyze_each harness_dir output_dir ((lang, fw, url) :: rest) w
  = match analyze harness_dir output_dir lang fw url w with
    | (Ok _, w1) => analyze_each harness_dir output_dir rest w1
    | (Raise e, w1) => (Raise e, w1)
    end.
Proof. reflexivity. Qed.

Lemma analyze_all_app harness_dir output_dir todo1 todo2 (w : world float os) :
  analyze_each harness_dir output_dir (todo1 ++ todo2)%list w
  = match analyze_each harness_dir output_dir todo1 w with
    | (Ok _, w1) => analyze_each harness_dir output_dir todo2 w1
    | (Raise e, w1) => (Raise e, w1)
    end.
Proof.
  revert w. induction todo1 as [|[[lang fw] url] todo1 IH]; intros w.
  - simpl. by destruct (analyze_each harness_dir output_dir todo2 w) as [[[]|e] w1].
  - rewrite <- app_comm_cons, !analyze_all_cons.
    destruct (analyze harness_dir output_dir lang fw url w) as [[u|e] w1];
      [apply IH | done].
Qed.

(** X13. Analyze mode has no isolation between repositories: when the
    entries before one have been analyzed and that one raises, the loop ends
    with its exception in the state it left, and none of the entries after
    it is analyzed. *)
Theorem analyze_all_stops_at_first_failure harness_dir output_dir
    done_ lang fw url rest (w w1 w2 : world float os) e :
  analyze_each harness_dir output_dir done_ w = (Ok (), w1) ->
  analyze harness_dir output_dir lang fw url w1 = (Raise e, w2) ->
  analyze_each harness_dir output_dir (done_ ++ (lang, fw, url) :: rest)%list w
  = (Raise e, w2).
Proof.
  intros Hdone Hfail. by rewrite analyze_all_app, Hdone, analyze_all_cons, Hfail.
Qed.

End AnalyzeMore.

(** ** The further properties at concrete records *)

Lemma lines_of_code_witness :
  exists t st b c m,
    tokei (file_json (Small.flask_file Small.two_findings)) = Some t /\
    t !! "Python" = Some st /\
    blanks st = Some b /\ code st = Some c /\ comments st = Some m /\
    ["a/b"; "0123456"; "flask"; "Python"; "24"; "12.34";
     "2"; "1"; "0"; "0"; "0"; "0"] !! 4%nat = Some (str_int (b + c + m)).
Proof.
  apply (lines_of_code Small.float Small.str_float Small.urlparse_path
           (Small.flask_file Small.two_findings)).
  - vm_compute. reflexivity.
  - reflexivity.
  - discriminate.
Defined.

Lemma lines_of_code_js_ts_witness :
  exists t js ts jb jc jm tb tc tm,
    tokei (file_json (Small.js_ts_record Small.js_and_ts)) = Some t /\
    t !! "JavaScript" = Some js /\ t !! "TypeScript" = Some ts /\
    blanks js = Some jb /\ code js = Some jc /\ comments js = Some jm /\
    blanks ts = Some tb /\ code ts = Some tc /\ comments ts = Some tm /\
    ["payloadcms/payload"; "89abcde"; "express"; "JavaScript/TypeScript";
     "50"; "2.5"; "0"; "0"; "0"; "0"; "0"; "0"] !! 3%nat
    = Some JS_TS_LANGUAGE /\
    ["payloadcms/payload"; "89abcde"; "express"; "JavaScript/TypeScript";
     "50"; "2.5"; "0"; "0"; "0"; "0"; "0"; "0"] !! 4%nat
    = Some (str_int (jb + jc + jm + (tb + tc + tm))).
Proof.
  apply (lines_of_code_js_ts Small.float Small.str_float Small.urlparse_path
           (Small.js_ts_record Small.js_and_ts)).
  - vm_compute. reflexivity.
  - reflexivity.
Defined.

Lemma js_ts_needs_typescript_witness :
  Small.process_output (Small.js_ts_record Small.js_only)
  = Raise (KeyError "TypeScript").
Proof.
  apply (js_ts_needs_typescript Small.float Small.str_float
           Small.urlparse_path (Small.js_ts_record Small.js_only)
           Small.js_only 1 10 2).
  - reflexivity.
  - reflexivity.
  - vm_compute. reflexivity.
  - vm_compute. reflexivity.
Defined.

Lemma no_findings_all_zero_witness :
  ["a/b"; "0123456"; "flask"; "Python"; "24"; "12.34";
   "0"; "0"; "0"; "0"; "0"; "0"] !! 6%nat = Some "0" /\
  ["a/b"; "0123456"; "flask"; "Python"; "24"; "12.34";
   "0"; "0"; "0"; "0"; "0"; "0"] !! 7%nat = Some "0" /\
  ["a/b"; "0123456"; "flask"; "Python"; "24"; "12.34";
   "0"; "0"; "0"; "0"; "0"; "0"] !! 8%nat = Some "0" /\
  ["a/b"; "0123456"; "flask"; "Python"; "24"; "12.34";
   "0"; "0"; "0"; "0"; "0"; "0"] !! 9%nat = Some "0" /\
  ["a/b"; "0123456"; "flask"; "Python"; "24"; "12.34";
   "0"; "0"; "0"; "0"; "0"; "0"] !! 10%nat = Some "0" /\
  ["a/b"; "0123456"; "flask"; "Python"; "24"; "12.34";
   "0"; "0"; "0"; "0"; "0"; "0"] !! 11%nat = Some "0".
Proof.
  apply (no_findings_all_zero Small.float Small.str_float Small.urlparse_path
           (Small.flask_file []) _ {| results := Some [] |}).
  - vm_compute. reflexivity.
  - reflexivity.
  - reflexivity.
Defined.

Lemma row_fields_of_record_witness :
  exists lang fw rt,
    language (file_json (Small.flask_file Small.two_findings)) = Some lang /\
    framework (file_json (Small.flask_file Small.two_findings)) = Some fw /\
    runtime (file_json (Small.flask_file Small.two_findings)) = Some rt /\
    ["a/b"; "0123456"; "flask"; "Python"; "24"; "12.34";
     "2"; "1"; "0"; "0"; "0"; "0"] !! 2%nat = Some fw /\
    ["a/b"; "0123456"; "flask"; "Python"; "24"; "12.34";
     "2"; "1"; "0"; "0"; "0"; "0"] !! 3%nat = Some lang /\
    ["a/b"; "0123456"; "flask"; "Python"; "24"; "12.34";
     "2"; "1"; "0"; "0"; "0"; "0"] !! 5%nat = Some (Small.str_float rt) /\
    sort_key ["a/b"; "0123456"; "flask"; "Python"; "24"; "12.34";
              "2"; "1"; "0"; "0"; "0"; "0"] = Ok (lang ++ fw).
Proof.
  apply (row_fields_of_record Small.float Small.str_float Small.urlparse_path
           (Small.flask_file Small.two_findings)).
  vm_compute. reflexivity.
Defined.

Lemma sort_is_stable_witness :
  List.filter (fun r => String.eqb (row_key r) "Gogin")
    [["y/two"; "2222222"; "chi"; "Go"];
     ["x/one"; "1111111"; "gin"; "Go"];
     ["z/three"; "3333333"; "gin"; "Go"]]
  = List.filter (fun r => String.eqb (row_key r) "Gogin") Small.three_rows.
Proof.
  apply (sort_is_stable Small.three_rows). vm_compute. reflexivity.
Defined.

Lemma analyze_all_stops_at_first_failure_witness :
  Small.analyze_all ["harness"] ["output"]
    ([Small.airflow_entry; Small.flaskbb_entry]
     ++ ("Python", "flask", "https://github.com/getredash/redash")
        :: [("Python", "sanic", "https://github.com/howie6879/owllook")])%list
    Small.two_cloned
  = (Raise FileNotFoundError, Small.after_redash).
Proof.
  apply (analyze_all_stops_at_first_failure Small.float Small.urlparse_path
           Small.os Small.path_exists Small.path_resolve Small.subprocess_run
           Small.json_loads_tokei Small.json_loads_semgrep Small.monotonic
           Small.round_elapsed Small.json_dump ["harness"] ["output"]
           [Small.airflow_entry; Small.flaskbb_entry]
           "Python" "flask" "https://github.com/getredash/redash"
           [("Python", "sanic", "https://github.com/howie6879/owllook")]
           Small.two_cloned Small.after_flaskbb Small.after_redash
           FileNotFoundError).
  - vm_compute. reflexivity.
  - vm_compute. reflexivity.
Defined.

Lemma complete_record_is_processed_witness :
  exists row, Small.process_output (Small.flask_file []) = Ok row.
Proof.
  apply (complete_record_is_processed Small.float Small.str_float
           Small.urlparse_path (Small.flask_file [])
           "https://github.com/a/b" "/a/b" "" "a" "b").
  - intros H.
    inversion H as [H0|H0|H0|H0|H0|H0|H0|l lang t Hl Hin Ht H0
                   |l lang t stats Hl Hin Ht Hst H0|sg Hsg H0
                   |sg rs r Hsg Hrs Hr H0|sg rs r Hsg Hrs Hr H0
                   |sg rs r e Hsg Hrs Hr He H0
                   |sg rs r e mvs mv b Hsg Hrs Hr He Hm Hrole Hb H0];
      simpl in *; simplify_eq; try discriminate;
      try (injection Hrs as <-; by apply elem_of_nil in Hr).
    + apply list_elem_of_singleton in Hin as ->. vm_compute in H0. discriminate.
    + apply list_elem_of_singleton in Hin as ->. vm_compute in Hst.
      simplify_eq. simpl in H0. destruct H0 as [?|[?|?]]; discriminate.
  - reflexivity.
  - vm_compute. reflexivity.
  - vm_compute. reflexivity.
Defined.

Lemma analyze_repository_writes_record_witness :
  exists org repo rv err o1 record o,
    get_org_repo Small.urlparse_path "https://github.com/apache/airflow"
    = Ok (org, repo) /\
    Small.path_exists (w_os Small.two_cloned) (path_join ["harness"] repo)
    = true /\
    Small.subprocess_run ["git"; "rev-parse"; "HEAD"]
      (Some (Small.path_resolve (w_os Small.two_cloned)
               (path_join ["harness"] repo))) (w_os Small.two_cloned)
    = (Some (0, rv, err), o1) /\
    Small.json_dump record
      (path_join ["output"] (repo ++ "." ++ "flask" ++ ".json")) o
    = Ok (w_os Small.after_airflow) /\
    language record = Some "Python" /\ framework record = Some "flask" /\
    repository record = Some "https://github.com/apache/airflow" /\
    hash record = Some (str_strip rv) /\
    is_Some (tokei record) /\ is_Some (semgrep record) /\
    is_Some (runtime record) /\
    w_stdout Small.after_airflow = w_stdout Small.two_cloned.
Proof.
  apply (analyze_repository_writes_record Small.float Small.urlparse_path
           Small.os Small.path_exists Small.path_resolve Small.subprocess_run
           Small.json_loads_tokei Small.json_loads_semgrep Small.monotonic
           Small.round_elapsed Small.json_dump ["harness"] ["output"]
           "Python" "flask" "https://github.com/apache/airflow"
           Small.two_cloned Small.after_airflow).
  vm_compute. reflexivity.
Defined.

